(** * Enterprise MCP framework: the middleware pipeline and proxy engine

    A shallow embedding of [framework/proxy/middleware.py],
    [framework/proxy/router.py], [framework/proxy/server.py] and of the four
    middleware classes, together with the part of Python's [json] module and
    of the UTF-8 codec that [Request.from_bytes], [Request.to_bytes],
    [Response.from_bytes] and [Response.to_bytes] go through.

    Conventions of the model.
    - A Python [str] is a list of code points, [bytes] a list of bytes.
    - A decoded JSON value is a [pyval]; numbers are Python integers.  Float
      literals are outside the modelled fragment of JSON ([loads] rejects
      them), and so are the interpreter's resource limits (recursion depth,
      digits of an integer literal).
    - Floats that the code computes itself (clock readings, durations, costs)
      are exact rationals; rounding is not modelled.
    - Log output is not modelled; a log call that reads the clock still
      consumes a clock reading. *)

From Stdlib Require Import ZArith NArith QArith Lia List String Ascii.
From Stdlib.Strings Require Import Byte.
From Stdlib Require Import Decimal DecimalFacts DecimalPos DecimalN.
From stdpp Require Import base option list gmap.

Local Open Scope N_scope.

(** ** Strings and bytes *)

Definition str := list N.
Definition bytes := list byte.

(** A string literal of the source, as a Python [str]. *)
Definition lit (s : string) : str :=
  map N_of_ascii (list_ascii_of_string s).

Definition str_eqb (a b : str) : bool := bool_decide (a = b).

(** *** UTF-8

    [str.encode('utf-8')] and [bytes.decode('utf-8')], both strict: encoding
    refuses surrogates, decoding refuses overlong forms, surrogates, code
    points above U+10FFFF and truncated sequences. *)

Definition is_surrogate (c : N) : bool := (0xD800 <=? c) && (c <=? 0xDFFF).

Definition byte_of (n : N) : byte := default x00 (Byte.of_N n).

Definition utf8_encode_char (c : N) : option (list N) :=
  if c <? 0x80 then Some [c]
  else if c <? 0x800 then
    Some [N.lor 0xC0 (N.shiftr c 6); N.lor 0x80 (N.land c 0x3F)]
  else if is_surrogate c then None
  else if c <? 0x10000 then
    Some [N.lor 0xE0 (N.shiftr c 12);
          N.lor 0x80 (N.land (N.shiftr c 6) 0x3F);
          N.lor 0x80 (N.land c 0x3F)]
  else if c <? 0x110000 then
    Some [N.lor 0xF0 (N.shiftr c 18);
          N.lor 0x80 (N.land (N.shiftr c 12) 0x3F);
          N.lor 0x80 (N.land (N.shiftr c 6) 0x3F);
          N.lor 0x80 (N.land c 0x3F)]
  else None.

Fixpoint utf8_encode (s : str) : option bytes :=
  match s with
  | [] => Some []
  | c :: r =>
      match utf8_encode_char c, utf8_encode r with
      | Some bs, Some out => Some (map byte_of bs ++ out)
      | _, _ => None
      end
  end.

Definition is_cont (b : N) : bool := (0x80 <=? b) && (b <=? 0xBF).

Definition cont_bits (b : N) : N := N.land b 0x3F.

Fixpoint utf8_decode_N (bs : list N) : option str :=
  match bs with
  | [] => Some []
  | b0 :: r =>
      if b0 <? 0x80 then cons b0 <$> utf8_decode_N r
      else if b0 <? 0xC0 then None
      else if b0 <? 0xE0 then
        match r with
        | b1 :: r1 =>
            let c := N.lor (N.shiftl (N.land b0 0x1F) 6) (cont_bits b1) in
            if is_cont b1 && (0x80 <=? c) then cons c <$> utf8_decode_N r1
            else None
        | _ => None
        end
      else if b0 <? 0xF0 then
        match r with
        | b1 :: b2 :: r2 =>
            let c := N.lor (N.shiftl (N.land b0 0x0F) 12)
                       (N.lor (N.shiftl (cont_bits b1) 6) (cont_bits b2)) in
            if is_cont b1 && is_cont b2 && (0x800 <=? c)
               && negb (is_surrogate c)
            then cons c <$> utf8_decode_N r2
            else None
        | _ => None
        end
      else if b0 <? 0xF8 then
        match r with
        | b1 :: b2 :: b3 :: r3 =>
            let c := N.lor (N.shiftl (N.land b0 0x07) 18)
                       (N.lor (N.shiftl (cont_bits b1) 12)
                          (N.lor (N.shiftl (cont_bits b2) 6) (cont_bits b3))) in
            if is_cont b1 && is_cont b2 && is_cont b3
               && (0x10000 <=? c) && (c <? 0x110000)
            then cons c <$> utf8_decode_N r3
            else None
        | _ => None
        end
      else None
  end.

Definition utf8_decode (data : bytes) : option str :=
  utf8_decode_N (map Byte.to_N data).

(** ** Python values that JSON carries *)

#[warnings="-register-all"]
Inductive pyval :=
| PNone
| PBool (b : bool)
| PInt (z : Z)
| PStr (s : str)
| PList (l : list pyval)
| PDict (d : list (str * pyval)).

(** A [dict] keeps insertion order, and assigning to a key that is present
    keeps the key's place. *)
Definition dict := list (str * pyval).

Fixpoint dict_get (d : dict) (k : str) : option pyval :=
  match d with
  | [] => None
  | (k', v) :: r => if str_eqb k k' then Some v else dict_get r k
  end.

Fixpoint dict_set (d : dict) (k : str) (v : pyval) : dict :=
  match d with
  | [] => [(k, v)]
  | (k', v') :: r =>
      if str_eqb k k' then (k', v) :: r else (k', v') :: dict_set r k v
  end.

(** [obj.get(key, default)] *)
Definition get (d : dict) (k : str) (dflt : pyval) : pyval :=
  default dflt (dict_get d k).

(** Truth value of an object ([if x:], [not x]). *)
Definition truthy (v : pyval) : bool :=
  match v with
  | PNone => false
  | PBool b => b
  | PInt z => negb (Z.eqb z 0)
  | PStr [] | PList [] | PDict [] => false
  | PStr _ | PList _ | PDict _ => true
  end.

(** ** [json.dumps] with its default arguments

    [ensure_ascii=True], separators [", "] and [": "]. *)

Definition hex_digit (n : N) : N := if n <? 10 then 48 + n else 87 + n.

(** [format(n, "04x")] for [n < 0x10000] *)
Definition hex4 (n : N) : str :=
  [hex_digit (N.shiftr n 12 mod 16); hex_digit (N.shiftr n 8 mod 16);
   hex_digit (N.shiftr n 4 mod 16); hex_digit (n mod 16)].

Definition u_escape (n : N) : str := 92 :: 117 :: hex4 n.

(** The replacement of one character in [encode_basestring_ascii]: the
    short escapes of [ESCAPE_DCT], printable ASCII as it is, [\uXXXX] for
    the rest, as a surrogate pair above the basic plane. *)
Definition escape_char (c : N) : str :=
  if c =? 34 then [92; 34]
  else if c =? 92 then [92; 92]
  else if c =? 10 then [92; 110]
  else if c =? 13 then [92; 114]
  else if c =? 9 then [92; 116]
  else if c =? 12 then [92; 102]
  else if c =? 8 then [92; 98]
  else if (32 <=? c) && (c <=? 126) then [c]
  else if c <? 0x10000 then u_escape c
  else
    let n := c - 0x10000 in
    let s1 := N.lor 0xD800 (N.land (N.shiftr n 10) 0x3FF) in
    let s2 := N.lor 0xDC00 (N.land n 0x3FF) in
    u_escape s1 ++ u_escape s2.

Definition encode_basestring_ascii (s : str) : str :=
  34 :: flat_map escape_char s ++ [34].

Fixpoint uint_str (d : Decimal.uint) : str :=
  match d with
  | Nil => []
  | D0 r => 48 :: uint_str r
  | D1 r => 49 :: uint_str r
  | D2 r => 50 :: uint_str r
  | D3 r => 51 :: uint_str r
  | D4 r => 52 :: uint_str r
  | D5 r => 53 :: uint_str r
  | D6 r => 54 :: uint_str r
  | D7 r => 55 :: uint_str r
  | D8 r => 56 :: uint_str r
  | D9 r => 57 :: uint_str r
  end.

(** [int.__repr__] *)
Definition int_repr (z : Z) : str :=
  match z with
  | Z0 => [48]
  | Zpos p => uint_str (Pos.to_uint p)
  | Zneg p => 45 :: uint_str (Pos.to_uint p)
  end.

(** [separator.join(items)] *)
Fixpoint join (sep : str) (items : list str) : str :=
  match items with
  | [] => []
  | [x] => x
  | x :: r => x ++ sep ++ join sep r
  end.

Fixpoint dumps (v : pyval) : str :=
  match v with
  | PNone => lit "null"
  | PBool true => lit "true"
  | PBool false => lit "false"
  | PInt z => int_repr z
  | PStr s => encode_basestring_ascii s
  | PList l =>
      91 :: join (lit ", ") (map dumps l) ++ [93]
  | PDict d =>
      123 :: join (lit ", ")
               (map (fun kv => encode_basestring_ascii (fst kv)
                                 ++ lit ": " ++ dumps (snd kv)) d)
          ++ [125]
  end.

(** ** [json.loads]

    The scanner of [json.decoder] and [json.scanner], on the text after
    [bytes.decode].  Each function returns the value it read and the rest of
    the text.  The recursion is on a fuel that [loads] sets from the length
    of the text. *)

Definition is_ws (c : N) : bool :=
  (c =? 32) || (c =? 9) || (c =? 10) || (c =? 13).

Fixpoint skip_ws (s : str) : str :=
  match s with
  | c :: r => if is_ws c then skip_ws r else s
  | [] => []
  end.

Definition hex_val (c : N) : option N :=
  if (48 <=? c) && (c <=? 57) then Some (c - 48)
  else if (97 <=? c) && (c <=? 102) then Some (c - 87)
  else if (65 <=? c) && (c <=? 70) then Some (c - 55)
  else None.

(** [_decode_uXXXX]: four hexadecimal digits *)
Definition decode_uXXXX (s : str) : option (N * str) :=
  match s with
  | a :: b :: c :: d :: r =>
      x3 ← hex_val a; x2 ← hex_val b; x1 ← hex_val c; x0 ← hex_val d;
      Some (((x3 * 16 + x2) * 16 + x1) * 16 + x0, r)
  | _ => None
  end.

(** The short escapes of [BACKSLASH] *)
Definition backslash (c : N) : option N :=
  if c =? 34 then Some 34
  else if c =? 92 then Some 92
  else if c =? 47 then Some 47
  else if c =? 98 then Some 8
  else if c =? 102 then Some 12
  else if c =? 110 then Some 10
  else if c =? 114 then Some 13
  else if c =? 116 then Some 9
  else None.

(** [scanstring(s, end, strict=True)], entered after the opening quote *)
Fixpoint scanstring (fuel : nat) (s : str) : option (str * str) :=
  match fuel with
  | O => None
  | S f =>
      match s with
      | [] => None
      | c :: r =>
          if c =? 34 then Some ([], r)
          else if c =? 92 then
            match r with
            | [] => None
            | e :: r1 =>
                if e =? 117 then
                  '(uni, r2) ← decode_uXXXX r1;
                  '(ch, r3) ←
                    (if (0xD800 <=? uni) && (uni <=? 0xDBFF) then
                       match r2 with
                       | 92 :: 117 :: r2' =>
                           '(uni2, r4) ← decode_uXXXX r2';
                           if (0xDC00 <=? uni2) && (uni2 <=? 0xDFFF) then
                             Some (0x10000 +
                                     N.lor (N.shiftl (uni - 0xD800) 10)
                                           (uni2 - 0xDC00), r4)
                           else Some (uni, r2)
                       | _ => Some (uni, r2)
                       end
                     else Some (uni, r2));
                  '(k, rest) ← scanstring f r3;
                  Some (ch :: k, rest)
                else
                  ch ← backslash e;
                  '(k, rest) ← scanstring f r1;
                  Some (ch :: k, rest)
            end
          else if c <? 32 then None
          else
            '(k, rest) ← scanstring f r;
            Some (c :: k, rest)
      end
  end.

Definition digit_of (c : N) : option (Decimal.uint -> Decimal.uint) :=
  if c =? 48 then Some D0 else if c =? 49 then Some D1
  else if c =? 50 then Some D2 else if c =? 51 then Some D3
  else if c =? 52 then Some D4 else if c =? 53 then Some D5
  else if c =? 54 then Some D6 else if c =? 55 then Some D7
  else if c =? 56 then Some D8 else if c =? 57 then Some D9
  else None.

Fixpoint read_digits (s : str) : Decimal.uint * str :=
  match s with
  | c :: r =>
      match digit_of c with
      | Some dg => let '(d, r') := read_digits r in (dg d, r')
      | None => (Nil, s)
      end
  | [] => (Nil, [])
  end.

(** The integer part of [NUMBER_RE] (an optional minus sign, then a single
    zero or a digit run that starts with a non-zero digit) and [int] of it.
    A fraction or exponent after it makes the literal a float, which the
    grammar accepts nowhere else, so the scan of the enclosing text fails. *)
Definition scan_int (s : str) : option (Z * str) :=
  let '(neg, r) := match s with
                   | 45 :: r => (true, r)
                   | _ => (false, s)
                   end in
  match r with
  | c :: r' =>
      if c =? 48 then Some (0%Z, r')
      else if (49 <=? c) && (c <=? 57) then
        let '(d, r'') := read_digits r in
        let n := Z.of_N (N.of_uint d) in
        Some (if neg then (- n)%Z else n, r'')
      else None
  | [] => None
  end.

Fixpoint strip_prefix (p s : str) : option str :=
  match p, s with
  | [], _ => Some s
  | a :: p', b :: s' => if a =? b then strip_prefix p' s' else None
  | _ :: _, [] => None
  end.

(** [scan_once], [JSONArray] and [JSONObject].  [parse_elems] is the loop of
    [JSONArray] at the start of a value; [parse_members] is the loop of
    [JSONObject] after the opening quote of a key.  [dict(pairs)] keeps the
    last value of a repeated key. *)
Fixpoint scan_once (fuel : nat) (s : str) : option (pyval * str) :=
  match fuel with
  | O => None
  | S f =>
      match s with
      | [] => None
      | c :: r =>
          if c =? 34 then
            '(k, rest) ← scanstring (S (length r)) r; Some (PStr k, rest)
          else if c =? 123 then
            match skip_ws r with
            | c1 :: r1 =>
                if c1 =? 125 then Some (PDict [], r1)
                else if c1 =? 34 then parse_members f r1 []
                else None
            | [] => None
            end
          else if c =? 91 then
            match skip_ws r with
            | c1 :: r1 =>
                if c1 =? 93 then Some (PList [], r1)
                else parse_elems f (c1 :: r1) []
            | [] => None
            end
          else if c =? 110 then
            rest ← strip_prefix (lit "null") s; Some (PNone, rest)
          else if c =? 116 then
            rest ← strip_prefix (lit "true") s; Some (PBool true, rest)
          else if c =? 102 then
            rest ← strip_prefix (lit "false") s; Some (PBool false, rest)
          else
            '(z, rest) ← scan_int s; Some (PInt z, rest)
      end
  end
with parse_elems (fuel : nat) (s : str) (acc : list pyval)
  : option (pyval * str) :=
  match fuel with
  | O => None
  | S f =>
      '(v, r) ← scan_once f s;
      match skip_ws r with
      | c :: r1 =>
          if c =? 93 then Some (PList (acc ++ [v]), r1)
          else if c =? 44 then parse_elems f (skip_ws r1) (acc ++ [v])
          else None
      | [] => None
      end
  end
with parse_members (fuel : nat) (s : str) (acc : dict)
  : option (pyval * str) :=
  match fuel with
  | O => None
  | S f =>
      '(k, r) ← scanstring (S (length s)) s;
      match skip_ws r with
      | c :: r1 =>
          if c =? 58 then
            '(v, r2) ← scan_once f (skip_ws r1);
            match skip_ws r2 with
            | c2 :: r3 =>
                if c2 =? 125 then Some (PDict (dict_set acc k v), r3)
                else if c2 =? 44 then
                  match skip_ws r3 with
                  | c3 :: r4 =>
                      if c3 =? 34 then parse_members f r4 (dict_set acc k v)
                      else None
                  | [] => None
                  end
                else None
            | [] => None
            end
          else None
      | [] => None
      end
  end.

(** [json.loads(s)] for a [str]: no byte order mark, one value between
    optional whitespace, nothing after it. *)
Definition starts_with_bom (s : str) : bool :=
  match s with
  | c :: _ => c =? 0xFEFF
  | [] => false
  end.

Definition loads (s : str) : option pyval :=
  if starts_with_bom s then None
  else
    '(v, r) ← scan_once (S (length s)) (skip_ws s);
    match skip_ws r with
    | [] => Some v
    | _ :: _ => None
    end.

(** ** Values that [dumps] and [loads] carry unchanged

    A [str] of Unicode scalar values (what [bytes.decode] produces: below
    U+110000, no surrogate), and dicts whose keys are pairwise distinct, as
    those of a Python [dict] are. *)

Definition scalar (c : N) : bool := (c <? 0x110000) && negb (is_surrogate c).

Definition str_ok (s : str) : bool := forallb scalar s.

Fixpoint valid (v : pyval) : bool :=
  match v with
  | PNone | PBool _ | PInt _ => true
  | PStr s => str_ok s
  | PList l => forallb valid l
  | PDict d =>
      bool_decide (NoDup (map fst d))
      && forallb (fun kv => str_ok (fst kv) && valid (snd kv)) d
  end.

(** The fuel that scanning the text of a value takes. *)
Fixpoint size (v : pyval) : nat :=
  match v with
  | PList l => S (list_sum (map (fun x => S (size x)) l))
  | PDict d => S (list_sum (map (fun kv => S (size (snd kv))) d))
  | _ => 1
  end.

(** The text that follows does not go on with a digit. *)
Definition no_digit_head (rest : str) : Prop :=
  match rest with
  | [] => True
  | c :: _ => digit_of c = None
  end.

(** ** Notions used in the statements about the codec *)

(** The first character of the text of a value. *)
Definition value_start (c : N) : bool :=
  (c =? 34) || (c =? 123) || (c =? 91) || (c =? 110) || (c =? 116)
  || (c =? 102) || (c =? 45) || ((48 <=? c) && (c <=? 57)).

(** Scanning the text of [v], whatever follows it, gives [v] back. *)
Definition reads_back (v : pyval) : Prop :=
  forall fuel rest,
    valid v = true -> no_digit_head rest -> (size v <= fuel)%nat ->
    scan_once fuel (dumps v ++ rest) = Some (v, rest).

(** The text of one member of a dict. *)
Definition member (kv : str * pyval) : str :=
  encode_basestring_ascii (fst kv) ++ lit ": " ++ dumps (snd kv).

(** [acc[k] = v] for a pair. *)
Definition put (acc : dict) (kv : str * pyval) : dict :=
  dict_set acc (fst kv) (snd kv).

(** Text within ASCII. *)
Definition ascii_text (s : str) : Prop := Forall (fun c => c < 128) s.

(** ** Exceptions and effects

    An exception is its class name and [str(e)].  A computation threads a
    state and ends by returning, by raising, or by never completing (an
    [await] on a peer that never answers). *)

Record exn := Exn { exn_class : string; exn_msg : str }.

Inductive outcome (A : Type) :=
| Ret (a : A)
| Raise (e : exn)
| Hang.
Arguments Ret {A} a.
Arguments Raise {A} e.
Arguments Hang {A}.

Definition M (S A : Type) : Type := S -> S * outcome A.

Definition ret {S A} (a : A) : M S A := fun s => (s, Ret a).
Definition raise {S A} (e : exn) : M S A := fun s => (s, Raise e).
Definition hang {S A} : M S A := fun s => (s, Hang).

Definition bind {S A B} (m : M S A) (k : A -> M S B) : M S B :=
  fun s =>
    match m s with
    | (s', Ret a) => k a s'
    | (s', Raise e) => (s', Raise e)
    | (s', Hang) => (s', Hang)
    end.

#[global] Instance M_ret {S} : MRet (M S) := fun A a => ret a.
#[global] Instance M_bind {S} : MBind (M S) := fun A B k m => bind m k.

(** [try: body except Exception as e: handler(e)] *)
Definition try_except {S A} (body : M S A) (handler : exn -> M S A) : M S A :=
  fun s =>
    match body s with
    | (s', Raise e) => handler e s'
    | r => r
    end.

(** [text.encode('utf-8')] *)
Definition encode_utf8 {S} (text : str) : M S bytes :=
  match utf8_encode text with
  | Some data => ret data
  | None => raise (Exn "UnicodeEncodeError" (lit "surrogates not allowed"))
  end.

(** Values held in a [metadata] mapping: JSON-like values and floats. *)
Inductive meta :=
| MVal (v : pyval)
| MFloat (x : Q).

(** ** The world outside the program

    What the code reads from its environment: the successive readings of
    [time.time()], the successive values of [str(uuid.uuid4())], what
    happens when a router talks to its target, the diagnostic text of the
    codec for an input it rejects, and [str()] of the values whose text form
    is not computed here (containers and floats). *)

Inductive io_result :=
| IOReply (data : bytes)
| IOError (e : exn)
| IOBlocked.

Record Environ := {
  clock : nat -> Q;
  uuid4 : nat -> str;
  backend : str -> Z -> bytes -> io_result;
  decode_diag : bytes -> str;
  str_other : meta -> str
}.

(** How many clock readings and identifiers have been drawn so far. *)
Record Sources := {
  clock_reads : nat;
  uuid_draws : nat
}.

(** [time.time()] *)
Definition time_time (W : Environ) : M Sources Q :=
  fun s =>
    ({| clock_reads := S (clock_reads s); uuid_draws := uuid_draws s |},
     Ret (clock W (clock_reads s))).

(** [str(uuid.uuid4())] *)
Definition new_uuid (W : Environ) : M Sources str :=
  fun s =>
    ({| clock_reads := clock_reads s; uuid_draws := S (uuid_draws s) |},
     Ret (uuid4 W (uuid_draws s))).

(** [type(v).__name__] *)
Definition type_name (v : pyval) : str :=
  match v with
  | PNone => lit "NoneType"
  | PBool _ => lit "bool"
  | PInt _ => lit "int"
  | PStr _ => lit "str"
  | PList _ => lit "list"
  | PDict _ => lit "dict"
  end.

(** [json.loads(data.decode('utf-8'))], then the first [obj.get]: the
    parsed object if it is a [dict], the exception otherwise. *)
Definition parse_object (W : Environ) (data : bytes) : exn + dict :=
  match utf8_decode data with
  | None => inl (Exn "UnicodeDecodeError" (decode_diag W data))
  | Some text =>
      match loads text with
      | None => inl (Exn "JSONDecodeError" (decode_diag W data))
      | Some (PDict obj) => inr obj
      | Some v =>
          inl (Exn "AttributeError"
                 (lit "'" ++ type_name v
                    ++ lit "' object has no attribute 'get'"))
      end
  end.

(** ** The data model ([framework/proxy/middleware.py]) *)

Module Request.
Record t := mk {
  method : pyval;
  params : pyval;
  id : pyval;
  jsonrpc : pyval;
  metadata : gmap str meta;
  timestamp : Q
}.

Definition from_bytes (W : Environ) (data : bytes) : M Sources t :=
  match parse_object W data with
  | inl e =>
      raise (Exn "ValueError" (lit "Invalid MCP request: " ++ exn_msg e))
  | inr obj =>
      fresh ← new_uuid W;
      now ← time_time W;
      mret (mk (get obj (lit "method") (PStr []))
               (get obj (lit "params") (PDict []))
               (get obj (lit "id") (PStr fresh))
               (get obj (lit "jsonrpc") (PStr (lit "2.0")))
               ∅ now)
  end.

(** The [obj] of [to_bytes]. *)
Definition to_bytes_obj (self : t) : pyval :=
  PDict [(lit "jsonrpc", jsonrpc self); (lit "method", method self);
         (lit "params", params self); (lit "id", id self)].

Definition to_bytes {S} (self : t) : M S bytes :=
  encode_utf8 (dumps (to_bytes_obj self)).
End Request.

Module Response.
(** The field [error] and the class method [error] share a name in the
    source; the class method is [make_error] here. *)
Record t := mk {
  result : pyval;
  error : pyval;
  id : pyval;
  jsonrpc : pyval;
  metadata : gmap str meta;
  timestamp : Q
}.

Definition from_bytes (W : Environ) (data : bytes) : M Sources t :=
  match parse_object W data with
  | inl e =>
      raise (Exn "ValueError" (lit "Invalid MCP response: " ++ exn_msg e))
  | inr obj =>
      now ← time_time W;
      mret (mk (get obj (lit "result") PNone)
               (get obj (lit "error") PNone)
               (get obj (lit "id") PNone)
               (get obj (lit "jsonrpc") (PStr (lit "2.0")))
               ∅ now)
  end.

(** The [obj] of [to_bytes]. *)
Definition to_bytes_obj (self : t) : pyval :=
  let obj := [(lit "jsonrpc", jsonrpc self); (lit "id", id self)] in
  if truthy (error self)
  then PDict (dict_set obj (lit "error") (error self))
  else PDict (dict_set obj (lit "result") (result self)).

Definition to_bytes {S} (self : t) : M S bytes :=
  encode_utf8 (dumps (to_bytes_obj self)).

(** [Response.error(message, code)] *)
Definition make_error (W : Environ) (message : str) (code : Z)
  : M Sources t :=
  now ← time_time W;
  mret (mk PNone
           (PDict [(lit "code", PInt code); (lit "message", PStr message)])
           PNone (PStr (lit "2.0")) ∅ now).
End Response.

(** ** Program state

    Request objects are shared and mutated in place, so they live in a
    store and are passed by location.  A location that was never allocated
    reads as [blank]; Python has no such reference.  [trace] is ghost state:
    the calls made by the chain and by the router, in order. *)

Definition loc := nat.

Record Env := {
  heap : list Request.t;
  sources : Sources
}.

Inductive event :=
| EvRequest (i : nat)
| EvForward (data : bytes)
| EvResponse (i : nat).

Record World := {
  env : Env;
  trace : list event
}.

Definition blank : Request.t :=
  Request.mk PNone PNone PNone PNone ∅ 0%Q.

Definition draw {A} (m : M Sources A) : M Env A :=
  fun e =>
    let '(s', o) := m (sources e) in
    ({| heap := heap e; sources := s' |}, o).

Definition lift {A} (m : M Env A) : M World A :=
  fun w =>
    let '(e', o) := m (env w) in
    ({| env := e'; trace := trace w |}, o).

Definition emit (ev : event) : M World unit :=
  fun w => ({| env := env w; trace := trace w ++ [ev] |}, Ret ()).

Definition alloc (r : Request.t) : M Env loc :=
  fun e =>
    ({| heap := heap e ++ [r]; sources := sources e |},
     Ret (length (heap e))).

Definition load (l : loc) : M Env Request.t :=
  fun e => (e, Ret (default blank (heap e !! l))).

(** [request.metadata[k] = v] *)
Definition set_metadata (l : loc) (k : str) (v : meta) : M Env unit :=
  fun e =>
    let r := default blank (heap e !! l) in
    let r' := Request.mk (Request.method r) (Request.params r)
                (Request.id r) (Request.jsonrpc r)
                (<[k := v]> (Request.metadata r)) (Request.timestamp r) in
    ({| heap := <[l := r']> (heap e); sources := sources e |}, Ret ()).

(** [response.metadata[k] = v] *)
Definition with_metadata (resp : Response.t) (k : str) (v : meta)
  : Response.t :=
  Response.mk (Response.result resp) (Response.error resp)
    (Response.id resp) (Response.jsonrpc resp)
    (<[k := v]> (Response.metadata resp)) (Response.timestamp resp).

(** [str(v)] inside an f-string *)
Definition py_str (W : Environ) (v : meta) : str :=
  match v with
  | MVal (PStr s) => s
  | MVal (PInt z) => int_repr z
  | MVal PNone => lit "None"
  | MVal (PBool true) => lit "True"
  | MVal (PBool false) => lit "False"
  | _ => str_other W v
  end.

(** [a == b] on JSON-like values: numbers by value ([True == 1]), lists
    element by element, dicts as mappings whatever the order. *)
Fixpoint py_eq (a b : pyval) : bool :=
  let num v := match v with
               | PBool c => Some (if c then 1%Z else 0%Z)
               | PInt z => Some z
               | _ => None
               end in
  match a, b with
  | PNone, PNone => true
  | PStr s, PStr s' => str_eqb s s'
  | PList l, PList l' =>
      (fix go l l' :=
         match l, l' with
         | [], [] => true
         | x :: r, y :: r' => py_eq x y && go r r'
         | _, _ => false
         end) l l'
  | PDict d, PDict d' =>
      Nat.eqb (length d) (length d')
      && (fix go d :=
            match d with
            | [] => true
            | (k, v) :: r =>
                match dict_get d' k with
                | Some v' => py_eq v v' && go r
                | None => false
                end
            end) d
  | _, _ =>
      match num a, num b with
      | Some x, Some y => Z.eqb x y
      | _, _ => false
      end
  end.

(** ** The middleware interface

    [Middleware] is the abstract base class: a stage processes a request on
    the way in and a response, with the original request, on the way out.
    A stage sees the store and the clock, not the ghost trace. *)

Class Middleware (T : Type) := {
  process_request : T -> loc -> M Env loc;
  process_response : T -> Response.t -> loc -> M Env Response.t
}.

Inductive stage :=
| Stage {T : Type} `{Middleware T} (self : T).

Definition stage_request (mw : stage) : loc -> M Env loc :=
  match mw with Stage self => process_request self end.

Definition stage_response (mw : stage) : Response.t -> loc -> M Env Response.t :=
  match mw with Stage self => process_response self end.

Module MiddlewareChain.
Record t := mk { middleware : list stage }.

Definition init : t := mk [].

Definition add (self : t) (mw : stage) : t := mk (middleware self ++ [mw]).

(** The stages with their positions in the chain. *)
Definition indexed (self : t) : list (nat * stage) :=
  zip (seq 0 (length (middleware self))) (middleware self).

Fixpoint run_request (stages : list (nat * stage)) (request : loc)
  : M World loc :=
  match stages with
  | [] => mret request
  | (i, mw) :: rest =>
      emit (EvRequest i);;
      request' ← lift (stage_request mw request);
      run_request rest request'
  end.

Fixpoint run_response (stages : list (nat * stage)) (response : Response.t)
  (request : loc) : M World Response.t :=
  match stages with
  | [] => mret response
  | (i, mw) :: rest =>
      emit (EvResponse i);;
      response' ← lift (stage_response mw response request);
      run_response rest response' request
  end.

(** [for mw in self.middleware] *)
Definition process_request (self : t) (request : loc) : M World loc :=
  run_request (indexed self) request.

(** [for mw in reversed(self.middleware)] *)
Definition process_response (self : t) (response : Response.t)
  (request : loc) : M World Response.t :=
  run_response (reverse (indexed self)) response request.
End MiddlewareChain.

(** ** Configuration ([framework/config.py]): the fields the stages read *)

Record SecurityConfig := { rbac_enabled : bool }.

Record ObservabilityConfig := { dashboard_enabled : bool }.

Record ApprovalConfig := { name : str; operations : list str }.

Record AuditConfig := { audit_enabled : bool }.

Record GovernanceConfig := {
  approvals : list ApprovalConfig;
  audit : AuditConfig
}.

Record RateLimitConfig := { rate_limits_enabled : bool }.

Record BudgetConfig := { budget_enabled : bool }.

Record CostConfig := {
  tracking_enabled : bool;
  rate_limits : RateLimitConfig;
  budget : BudgetConfig
}.

Record FrameworkConfig := {
  target_host : str;
  target_port : Z;
  security : SecurityConfig;
  observability : ObservabilityConfig;
  governance : GovernanceConfig;
  cost_management : CostConfig
}.

(** [not x] for an [Optional[str]] *)
Definition falsy (x : option str) : bool :=
  match x with
  | None | Some [] => true
  | Some _ => false
  end.

(** ** The four stages

    The private methods that the source leaves as placeholders
    ([_authenticate], [_authorize], [_get_approval], [_check_rate_limit],
    [_check_budget], [_calculate_cost]) are fields of the stage, so that a
    stage with real decisions is an instance too; [source] is the stage with
    the bodies the source gives them. *)

Module SecurityMiddleware.
Record t := mk {
  config : SecurityConfig;
  _authenticate : Request.t -> option str;
  _authorize : str -> pyval -> bool
}.

Definition source (config : SecurityConfig) : t :=
  mk config (fun _ => Some (lit "demo_user")) (fun _ _ => true).

Definition process_request (W : Environ) (self : t) (request : loc)
  : M Env loc :=
  r ← load request;
  let found := _authenticate self r in
  if falsy found
  then raise (Exn "PermissionError" (lit "Authentication failed"))
  else
    let user := default [] found in
    set_metadata request (lit "user") (MVal (PStr user));;
    if rbac_enabled (config self)
       && negb (_authorize self user (Request.method r))
    then raise (Exn "PermissionError"
                  (lit "User " ++ user ++ lit " not authorized for "
                     ++ py_str W (MVal (Request.method r))))
    else mret request.

Definition process_response (self : t) (response : Response.t)
  (request : loc) : M Env Response.t :=
  mret response.
End SecurityMiddleware.

Module ObservabilityMiddleware.
Record t := mk { config : ObservabilityConfig }.

Definition process_request (W : Environ) (self : t) (request : loc)
  : M Env loc :=
  now ← draw (time_time W);
  set_metadata request (lit "start_time") (MFloat now);;
  mret request.

(** [time.time() - start_time] *)
Definition elapsed {S} (now : Q) (start_time : meta) : M S Q :=
  match start_time with
  | MFloat t0 => ret (now - t0)%Q
  | MVal (PInt z) => ret (now - inject_Z z)%Q
  | MVal (PBool b) => ret (now - inject_Z (if b then 1 else 0))%Q
  | MVal v =>
      raise (Exn "TypeError"
               (lit "unsupported operand type(s) for -: 'float' and '"
                  ++ type_name v ++ lit "'"))
  end.

Definition process_response (W : Environ) (self : t)
  (response : Response.t) (request : loc) : M Env Response.t :=
  r ← load request;
  dflt ← draw (time_time W);
  let start_time :=
    default (MFloat dflt) (Request.metadata r !! lit "start_time") in
  now ← draw (time_time W);
  duration ← elapsed now start_time;
  mret (with_metadata response (lit "duration_seconds") (MFloat duration)).
End ObservabilityMiddleware.

Module GovernanceMiddleware.
Record t := mk {
  config : GovernanceConfig;
  _get_approval : Request.t -> option str
}.

Definition source (config : GovernanceConfig) : t :=
  mk config (fun _ => Some (lit "auto_approved")).

Definition _requires_approval (self : t) (r : Request.t) : bool :=
  existsb
    (fun approval_config =>
       existsb (fun op => py_eq (Request.method r) (PStr op))
         (operations approval_config))
    (approvals (config self)).

(** The audit entry is only logged; building it reads the clock. *)
Definition _audit_log (W : Environ) : M Env unit :=
  draw (time_time W);; mret ().

Definition process_request (W : Environ) (self : t) (request : loc)
  : M Env loc :=
  r ← load request;
  (if _requires_approval self r then
     let approval := _get_approval self r in
     if falsy approval
     then raise (Exn "PermissionError"
                   (lit "Approval required for "
                      ++ py_str W (MVal (Request.method r))))
     else set_metadata request (lit "approval")
            (MVal (PStr (default [] approval)))
   else mret ());;
  (if audit_enabled (audit (config self)) then _audit_log W else mret ());;
  mret request.

Definition process_response (W : Environ) (self : t)
  (response : Response.t) (request : loc) : M Env Response.t :=
  (if audit_enabled (audit (config self)) then _audit_log W else mret ());;
  mret response.
End GovernanceMiddleware.

Module CostManagementMiddleware.
Record t := mk {
  config : CostConfig;
  _check_rate_limit : meta -> bool;
  _check_budget : meta -> bool;
  _calculate_cost : Request.t -> Response.t -> Q
}.

Definition source (config : CostConfig) : t :=
  mk config (fun _ => true) (fun _ => true) (fun _ _ => 1 # 1000)%Q.

(** [request.metadata.get("user", "anonymous")] *)
Definition user_of (r : Request.t) : meta :=
  default (MVal (PStr (lit "anonymous")))
    (Request.metadata r !! lit "user").

Definition process_request (W : Environ) (self : t) (request : loc)
  : M Env loc :=
  r ← load request;
  let user := user_of r in
  if rate_limits_enabled (rate_limits (config self))
     && negb (_check_rate_limit self user)
  then raise (Exn "PermissionError"
                (lit "Rate limit exceeded for user: " ++ py_str W user))
  else if budget_enabled (budget (config self))
          && negb (_check_budget self user)
  then raise (Exn "PermissionError"
                (lit "Budget limit exceeded for user: " ++ py_str W user))
  else mret request.

(** [_track_usage] only logs. *)
Definition process_response (self : t) (response : Response.t)
  (request : loc) : M Env Response.t :=
  r ← load request;
  mret (with_metadata response (lit "cost_usd")
          (MFloat (_calculate_cost self r response))).
End CostManagementMiddleware.

#[global] Instance SecurityMiddleware_stage (W : Environ)
  : Middleware SecurityMiddleware.t :=
  {| process_request := SecurityMiddleware.process_request W;
     process_response := SecurityMiddleware.process_response |}.

#[global] Instance ObservabilityMiddleware_stage (W : Environ)
  : Middleware ObservabilityMiddleware.t :=
  {| process_request := ObservabilityMiddleware.process_request W;
     process_response := ObservabilityMiddleware.process_response W |}.

#[global] Instance GovernanceMiddleware_stage (W : Environ)
  : Middleware GovernanceMiddleware.t :=
  {| process_request := GovernanceMiddleware.process_request W;
     process_response := GovernanceMiddleware.process_response W |}.

#[global] Instance CostManagementMiddleware_stage (W : Environ)
  : Middleware CostManagementMiddleware.t :=
  {| process_request := CostManagementMiddleware.process_request W;
     process_response := CostManagementMiddleware.process_response |}.

(** ** The router ([framework/proxy/router.py]) *)

Module MCPRouter.
Record t := mk { target_host : str; target_port : Z }.

(** Connect, write, read at most 4096 bytes, close.  Whatever the
    exchange raises is logged and raised again; nothing bounds the time
    the exchange takes. *)
Definition forward (W : Environ) (self : t) (data : bytes)
  : M World bytes :=
  emit (EvForward data);;
  try_except
    (match backend W (target_host self) (target_port self) data with
     | IOReply response => mret (take 4096 response)
     | IOError e => raise e
     | IOBlocked => hang
     end)
    (fun e => raise e).
End MCPRouter.

(** ** The proxy ([framework/proxy/server.py]) *)

Module EnterpriseProxy.
Record t := mk {
  config : FrameworkConfig;
  router : MCPRouter.t;
  middleware : MiddlewareChain.t
}.

(** Every layer of the configuration is an object, hence true: the four
    stages are always added, in this order. *)
Definition _init_middleware (W : Environ) (config : FrameworkConfig)
  : MiddlewareChain.t :=
  let chain := MiddlewareChain.init in
  let chain :=
    MiddlewareChain.add chain
      (Stage (H := SecurityMiddleware_stage W)
         (SecurityMiddleware.source (security config))) in
  let chain :=
    MiddlewareChain.add chain
      (Stage (H := ObservabilityMiddleware_stage W)
         (ObservabilityMiddleware.mk (observability config))) in
  let chain :=
    MiddlewareChain.add chain
      (Stage (H := GovernanceMiddleware_stage W)
         (GovernanceMiddleware.source (governance config))) in
  let chain :=
    MiddlewareChain.add chain
      (Stage (H := CostManagementMiddleware_stage W)
         (CostManagementMiddleware.source (cost_management config))) in
  chain.

Definition init (W : Environ) (config : FrameworkConfig) : t :=
  mk config
     (MCPRouter.mk (target_host config) (target_port config))
     (_init_middleware W config).

(** The default [code] of [Response.error] *)
Definition internal_error : Z := (-32603)%Z.

Definition handle_request (W : Environ) (self : t) (raw_request : bytes)
  : M World bytes :=
  try_except
    (request ← lift (parsed ← draw (Request.from_bytes W raw_request);
                     alloc parsed);
     processed_request ←
       MiddlewareChain.process_request (middleware self) request;
     outgoing ← lift (load processed_request);
     data ← Request.to_bytes outgoing;
     raw_response ← MCPRouter.forward W (router self) data;
     response ← lift (draw (Response.from_bytes W raw_response));
     processed_response ←
       MiddlewareChain.process_response (middleware self) response request;
     Response.to_bytes processed_response)
    (fun e =>
       error_response ←
         lift (draw (Response.make_error W (exn_msg e) internal_error));
       Response.to_bytes error_response).
End EnterpriseProxy.

(** ** Test vectors

    JSON text is written with apostrophes for the double quotes. *)

Definition json_text (s : string) : bytes :=
  map (fun c => byte_of (if c =? 39 then 34 else c)) (lit s).

Definition show (data : bytes) : string :=
  string_of_list_ascii (map (fun b => ascii_of_N (Byte.to_N b)) data).


(** A world to run the proxy in: the clock ticks once per reading, the
    identifiers are numbered, and the target answers every exchange with
    [io]. *)
Definition sample_environ (io : io_result) : Environ :=
  {| clock := fun n => inject_Z (Z.of_nat n);
     uuid4 := fun n => lit "uuid-" ++ int_repr (Z.of_nat n);
     backend := fun _ _ _ => io;
     decode_diag := fun _ => lit "invalid input";
     str_other := fun _ => lit "<object>" |}.

(** A configuration with one approval rule, for the operations [ops]. *)
Definition sample_config (ops : list str) : FrameworkConfig :=
  {| target_host := lit "localhost";
     target_port := 3000;
     security := {| rbac_enabled := true |};
     observability := {| dashboard_enabled := false |};
     governance :=
       {| approvals := [{| name := lit "destructive"; operations := ops |}];
          audit := {| audit_enabled := true |} |};
     cost_management :=
       {| tracking_enabled := true;
          rate_limits := {| rate_limits_enabled := true |};
          budget := {| budget_enabled := true |} |} |}.

Definition start : World :=
  {| env := {| heap := [];
               sources := {| clock_reads := 0; uuid_draws := 0 |} |};
     trace := [] |}.

(** A chain of the four stages in the order of [_init_middleware]. *)
Definition four_stages (W : Environ) (sec : SecurityMiddleware.t)
  (obs : ObservabilityMiddleware.t) (gov : GovernanceMiddleware.t)
  (cost : CostManagementMiddleware.t) : MiddlewareChain.t :=
  MiddlewareChain.mk
    [Stage (H := SecurityMiddleware_stage W) sec;
     Stage (H := ObservabilityMiddleware_stage W) obs;
     Stage (H := GovernanceMiddleware_stage W) gov;
     Stage (H := CostManagementMiddleware_stage W) cost].

(** The proxy of [sample_config ops] with the stages given. *)
Definition sample_proxy (W : Environ) (ops : list str)
  (chain : MiddlewareChain.t) : EnterpriseProxy.t :=
  EnterpriseProxy.mk (sample_config ops)
    (MCPRouter.mk (lit "localhost") 3000) chain.

(** A response with both [result] and [error]. *)
Definition both_set : Response.t :=
  Response.mk (PInt 1)
    (PDict [(lit "code", PInt 1); (lit "message", PStr (lit "x"))])
    (PStr (lit "1")) (PStr (lit "2.0")) ∅ 0%Q.

(** A request that a stage has already annotated. *)
Definition tagged : Request.t :=
  Request.mk (PStr (lit "tools/list")) (PDict []) (PInt 1)
    (PStr (lit "2.0"))
    (<[lit "user" := MVal (PStr (lit "alice"))]> ∅) 0%Q.

(** The stages of a deployment that decides: one in which no caller is
    recognised, one in which no approval is granted. *)
Definition no_identity (config : SecurityConfig) : SecurityMiddleware.t :=
  SecurityMiddleware.mk config (fun _ => None) (fun _ _ => true).

Definition no_approval (config : GovernanceConfig) : GovernanceMiddleware.t :=
  GovernanceMiddleware.mk config (fun _ => None).

(** The proxy as [EnterpriseProxy.init] builds it, but for the stage that
    grants no approval; closing an issue needs one. *)
Definition guarded_proxy (W : Environ) : EnterpriseProxy.t :=
  let config := sample_config [lit "issues.close"] in
  sample_proxy W [lit "issues.close"]
    (four_stages W
       (SecurityMiddleware.source (security config))
       (ObservabilityMiddleware.mk (observability config))
       (no_approval (governance config))
       (CostManagementMiddleware.source (cost_management config))).

(** The same, but for the stage that recognises no caller. *)
Definition anonymous_proxy (W : Environ) : EnterpriseProxy.t :=
  let config := sample_config [] in
  sample_proxy W []
    (four_stages W
       (no_identity (security config))
       (ObservabilityMiddleware.mk (observability config))
       (GovernanceMiddleware.source (governance config))
       (CostManagementMiddleware.source (cost_management config))).

Definition close_issue : bytes :=
  json_text "{'jsonrpc': '2.0', 'id': 1, 'method': 'issues.close', 'params': {}}".

Definition list_tools : bytes :=
  json_text "{'jsonrpc': '2.0', 'id': 1, 'method': 'tools/list', 'params': {}}".

(** The proxy as [EnterpriseProxy.__init__] builds it. *)
Definition source_proxy (W : Environ) : EnterpriseProxy.t :=
  EnterpriseProxy.init W (sample_config [lit "issues.close"]).

Definition refused : exn := Exn "ConnectionRefusedError" (lit "refused").

(** A reply of the target that answers another request. *)
Definition reply_99 : bytes :=
  json_text "{'jsonrpc': '2.0', 'id': 99, 'result': {}}".

(** ** Notions used in the statements about the proxy *)

(** What the proxy answers when a step of [handle_request] raises with
    [str(e) = message]. *)
Definition error_envelope (message : str) : bytes :=
  map byte_of
    (dumps
       (PDict
          [(lit "jsonrpc", PStr (lit "2.0")); (lit "id", PNone);
           (lit "error",
            PDict [(lit "code", PInt EnterpriseProxy.internal_error);
                   (lit "message", PStr message)])])).

(** A field that is not [None]. *)
Definition is_set (v : pyval) : bool :=
  match v with
  | PNone => false
  | _ => true
  end.

(** A stage whose [process_response] hands on the [id] it was given. *)
Definition keeps_id (mw : stage) : Prop :=
  forall response request e e' response',
    stage_response mw response request e = (e', Ret response') ->
    Response.id response' = Response.id response.

(** [r] after [r.metadata[k] = v]. *)
Definition annotated (r : Request.t) (k : str) (v : meta) : Request.t :=
  Request.mk (Request.method r) (Request.params r) (Request.id r)
    (Request.jsonrpc r) (<[k := v]> (Request.metadata r))
    (Request.timestamp r).

(** One more reading of the clock. *)
Definition tick (s : Sources) : Sources :=
  {| clock_reads := S (clock_reads s); uuid_draws := uuid_draws s |}.

(** The world once the decoded request is stored. *)
Definition received (w : World) (s' : Sources) (parsed : Request.t) : World :=
  {| env := {| heap := heap (env w) ++ [parsed]; sources := s' |};
     trace := trace w |}.

(** ** Construction of the proxy ([framework/config.py], [server.py])

    [FrameworkConfig.validate] reads [target_server] and three fields of
    [security] that no stage reads; they are kept apart from the records
    above. *)

Record TlsConfig := {
  tls_enabled : bool;
  tls_cert_path : option str;
  tls_key_path : option str
}.

(** The defaults of [SecurityConfig]: [tls_enabled = True], no paths. *)
Definition default_tls : TlsConfig :=
  {| tls_enabled := true; tls_cert_path := None; tls_key_path := None |}.

(** [FrameworkConfig.validate] *)
Definition validate (target_server : str) (tls : TlsConfig) : exn + bool :=
  if falsy (Some target_server)
  then inl (Exn "ValueError" (lit "target_server is required"))
  else if tls_enabled tls
          && (falsy (tls_cert_path tls) || falsy (tls_key_path tls))
  then inl (Exn "ValueError"
              (lit "TLS enabled but cert/key paths not provided"))
  else inr true.

(** [EnterpriseProxy.__init__]: the configuration is validated, then the
    router and the chain are built. *)
Definition new_proxy (W : Environ) (target_server : str) (tls : TlsConfig)
  (config : FrameworkConfig) : exn + EnterpriseProxy.t :=
  match validate target_server tls with
  | inl e => inl e
  | inr _ => inr (EnterpriseProxy.init W config)
  end.

(** ** Further notions and test vectors *)


(** A security stage that knows the caller and grants nothing. *)
Definition no_rights (config : SecurityConfig) : SecurityMiddleware.t :=
  SecurityMiddleware.mk config (fun _ => Some (lit "alice")) (fun _ _ => false).

(** A cost stage for which every caller is over the rate limit and over
    budget. *)
Definition exhausted (config : CostConfig) : CostManagementMiddleware.t :=
  CostManagementMiddleware.mk config (fun _ => false) (fun _ => false)
    (fun _ _ => 1 # 1000)%Q.

(** The wire fields of a request, as [to_bytes] writes them. *)
Definition plain_request : Request.t :=
  Request.mk (PStr (lit "tools/list")) (PDict []) (PInt 1)
    (PStr (lit "2.0")) ∅ 0%Q.

(** A store that holds [plain_request] at location 0. *)
Definition one_request (reads : nat) : Env :=
  {| heap := [plain_request];
     sources := {| clock_reads := reads; uuid_draws := 1 |} |}.

(** A response without an error. *)
Definition plain_response : Response.t :=
  Response.mk (PDict [(lit "tools", PList [])]) PNone (PInt 1)
    (PStr (lit "2.0")) ∅ 0%Q.

(** * Properties of the codec *)

(** Linear arithmetic with division and remainder by constants. *)
Ltac divlia := zify; Z.to_euclidean_division_equations; lia.

(** Decide the comparisons of a goal, then close it by arithmetic. *)
Ltac cmp_cases :=
  repeat match goal with
    | |- context [N.eqb ?a ?b] => destruct (N.eqb_spec a b)
    | |- context [N.leb ?a ?b] => destruct (N.leb_spec a b)
    | |- context [N.ltb ?a ?b] => destruct (N.ltb_spec a b)
    end; simpl; try reflexivity; try lia.

Section hexadecimal.

Lemma hex_val_digit d : d < 16 -> hex_val (hex_digit d) = Some d.
Proof.
  intros Hd. unfold hex_val, hex_digit.
  destruct (N.ltb_spec d 10); cmp_cases; f_equal; lia.
Qed.

Lemma hex_digit_ascii d : d < 16 -> hex_digit d < 128.
Proof. intros Hd. unfold hex_digit. destruct (N.ltb_spec d 10); lia. Qed.

Lemma decode_hex4 n r :
  n < 65536 -> decode_uXXXX (hex4 n ++ r) = Some (n, r).
Proof.
  intros Hn. unfold hex4, decode_uXXXX. rewrite !N.shiftr_div_pow2.
  simpl app. cbv beta iota.
  rewrite !hex_val_digit by (apply N.mod_lt; discriminate).
  simpl. do 2 f_equal. change (2 ^ 12) with 4096. change (2 ^ 8) with 256.
  change (2 ^ 4) with 16. divlia.
Qed.

End hexadecimal.

Section surrogates.

Lemma land_shiftl_small a x k : x < 2 ^ k -> N.land (N.shiftl a k) x = 0.
Proof.
  intros Hx. apply N.bits_inj. intros i. rewrite N.land_spec, N.bits_0.
  destruct (N.lt_ge_cases i k) as [Hi | Hi].
  - rewrite N.shiftl_spec_low by trivial. reflexivity.
  - destruct (N.eq_dec x 0) as [-> | Hx0].
    + rewrite N.bits_0. apply andb_false_r.
    + rewrite (N.bits_above_log2 x i), andb_false_r; trivial.
      apply N.log2_lt_pow2 in Hx; lia.
Qed.

Lemma lor_shiftl_add a x k :
  x < 2 ^ k -> N.lor (N.shiftl a k) x = a * 2 ^ k + x.
Proof.
  intros Hx. pose proof (land_shiftl_small a x k Hx) as Hd.
  rewrite <- N.lxor_lor, <- N.add_nocarry_lxor by trivial.
  rewrite N.shiftl_mul_pow2. reflexivity.
Qed.

Variable c : N.
Hypothesis c_low : 0x10000 <= c.
Hypothesis c_high : c < 0x110000.

Let n := c - 0x10000.
Let s1 := N.lor 0xD800 (N.land (N.shiftr n 10) 0x3FF).
Let s2 := N.lor 0xDC00 (N.land n 0x3FF).

Lemma high_surrogate_value : s1 = 0xD800 + n / 1024.
Proof.
  unfold s1. change 0x3FF with (N.ones 10).
  rewrite N.land_ones, N.shiftr_div_pow2.
  change 0xD800 with (N.shiftl 54 10).
  rewrite lor_shiftl_add by (apply N.mod_lt; discriminate).
  change (2 ^ 10) with 1024. change (N.shiftl 54 10) with 0xD800.
  subst n. divlia.
Qed.

Lemma low_surrogate_value : s2 = 0xDC00 + n mod 1024.
Proof.
  unfold s2. change 0x3FF with (N.ones 10). rewrite N.land_ones.
  change 0xDC00 with (N.shiftl 55 10).
  rewrite lor_shiftl_add by (apply N.mod_lt; discriminate).
  reflexivity.
Qed.

Lemma join_surrogates :
  0x10000 + N.lor (N.shiftl (s1 - 0xD800) 10) (s2 - 0xDC00) = c.
Proof.
  rewrite high_surrogate_value, low_surrogate_value.
  rewrite (N.add_comm 0xD800), (N.add_comm 0xDC00), !N.add_sub.
  rewrite lor_shiftl_add by (apply N.mod_lt; discriminate).
  change (2 ^ 10) with 1024. subst n. divlia.
Qed.

Lemma high_surrogate_range : 0xD800 <= s1 /\ s1 <= 0xDBFF.
Proof. rewrite high_surrogate_value. subst n. divlia. Qed.

Lemma low_surrogate_range : 0xDC00 <= s2 /\ s2 <= 0xDFFF.
Proof. rewrite low_surrogate_value. subst n. divlia. Qed.

End surrogates.

(** ** Strings: [scanstring] reads back what [encode_basestring_ascii] wrote *)

Lemma scanstring_unfold f s :
  scanstring (S f) s =
    match s with
    | [] => None
    | c :: r =>
        if c =? 34 then Some ([], r)
        else if c =? 92 then
          match r with
          | [] => None
          | e :: r1 =>
              if e =? 117 then
                '(uni, r2) ← decode_uXXXX r1;
                '(ch, r3) ←
                  (if (0xD800 <=? uni) && (uni <=? 0xDBFF) then
                     match r2 with
                     | 92 :: 117 :: r2' =>
                         '(uni2, r4) ← decode_uXXXX r2';
                         if (0xDC00 <=? uni2) && (uni2 <=? 0xDFFF) then
                           Some (0x10000 +
                                   N.lor (N.shiftl (uni - 0xD800) 10)
                                         (uni2 - 0xDC00), r4)
                         else Some (uni, r2)
                     | _ => Some (uni, r2)
                     end
                   else Some (uni, r2));
                '(k, rest) ← scanstring f r3;
                Some (ch :: k, rest)
              else
                ch ← backslash e;
                '(k, rest) ← scanstring f r1;
                Some (ch :: k, rest)
          end
        else if c <? 32 then None
        else
          '(k, rest) ← scanstring f r;
          Some (c :: k, rest)
    end.
Proof. reflexivity. Qed.

Lemma u_escape_app n r : u_escape n ++ r = 92 :: 117 :: (hex4 n ++ r).
Proof. reflexivity. Qed.

Lemma scanstring_escape f c r :
  scalar c = true ->
  scanstring (S f) (escape_char c ++ r) =
    '(k, rest) ← scanstring f r; Some (c :: k, rest).
Proof.
  unfold scalar. intros [Hc Hs]%andb_prop.
  apply N.ltb_lt in Hc. apply negb_true_iff in Hs.
  rewrite scanstring_unfold. unfold escape_char.
  unfold is_surrogate in Hs.
  destruct (N.eqb_spec c 34) as [-> | ?]; [reflexivity | ].
  destruct (N.eqb_spec c 92) as [-> | ?]; [reflexivity | ].
  destruct (N.eqb_spec c 10) as [-> | ?]; [reflexivity | ].
  destruct (N.eqb_spec c 13) as [-> | ?]; [reflexivity | ].
  destruct (N.eqb_spec c 9) as [-> | ?]; [reflexivity | ].
  destruct (N.eqb_spec c 12) as [-> | ?]; [reflexivity | ].
  destruct (N.eqb_spec c 8) as [-> | ?]; [reflexivity | ].
  destruct (N.leb_spec 32 c); destruct (N.leb_spec c 126); simpl andb; cbv iota.
  - simpl app. cbv iota.
    destruct (N.eqb_spec c 34); [lia | ].
    destruct (N.eqb_spec c 92); [lia | ].
    destruct (N.ltb_spec c 32); [lia | ]. reflexivity.
  - destruct (N.ltb_spec c 0x10000).
    + rewrite u_escape_app. cbv iota. change (92 =? 34) with false.
      change (92 =? 92) with true. change (117 =? 117) with true. cbv iota.
      rewrite decode_hex4 by trivial. cbv beta iota delta [mbind option_bind].
      destruct (N.leb_spec 0xD800 c); destruct (N.leb_spec c 0xDBFF);
        simpl andb; cbv iota; try reflexivity.
      exfalso. destruct (N.leb_spec 0xD800 c); destruct (N.leb_spec c 0xDFFF);
        simpl in Hs; try discriminate; lia.
    + cbv zeta. pose proof (high_surrogate_range c ltac:(lia) Hc) as [Hhi Hhi'].
      pose proof (low_surrogate_range c ltac:(lia) Hc) as [Hlo Hlo'].
      pose proof (join_surrogates c ltac:(lia) Hc) as Hj.
      cbv zeta in Hhi, Hhi', Hlo, Hlo', Hj.
      set (s1 := N.lor 55296 (N.land (N.shiftr (c - 65536) 10) 1023)) in *.
      set (s2 := N.lor 56320 (N.land (c - 65536) 1023)) in *.
      rewrite <- app_assoc, !u_escape_app. cbv iota.
      change (92 =? 34) with false.
      change (92 =? 92) with true. change (117 =? 117) with true. cbv iota.
      rewrite decode_hex4 by lia. cbv beta iota delta [mbind option_bind].
      destruct (N.leb_spec 0xD800 s1); [ | lia].
      destruct (N.leb_spec s1 0xDBFF); [ | lia]. simpl andb. cbv iota.
      rewrite decode_hex4 by lia. cbv beta iota delta [mbind option_bind].
      destruct (N.leb_spec 0xDC00 s2); [ | lia].
      destruct (N.leb_spec s2 0xDFFF); [ | lia]. simpl andb. cbv iota.
      rewrite Hj. reflexivity.
  - destruct (N.ltb_spec c 0x10000); [ | lia].
    rewrite u_escape_app. cbv iota. change (92 =? 34) with false.
    change (92 =? 92) with true. change (117 =? 117) with true. cbv iota.
    rewrite decode_hex4 by trivial. cbv beta iota delta [mbind option_bind].
    destruct (N.leb_spec 0xD800 c); [lia | ]. reflexivity.
  - lia.
Qed.

Lemma scanstring_encoded s : forall f rest,
  str_ok s = true -> (length s < f)%nat ->
  scanstring f (flat_map escape_char s ++ 34 :: rest) = Some (s, rest).
Proof.
  induction s as [ | c s IH]; intros f rest Hs Hf;
    (destruct f as [ | f]; [simpl in Hf; lia | ]).
  - reflexivity.
  - apply andb_prop in Hs as [Hc Hs]. simpl flat_map. rewrite <- app_assoc.
    rewrite scanstring_escape by trivial.
    rewrite IH by (trivial; simpl in Hf; lia). reflexivity.
Qed.

(** ** Integers: [scan_int] reads back what [int_repr] wrote *)

Lemma read_digits_uint d rest :
  no_digit_head rest -> read_digits (uint_str d ++ rest) = (d, rest).
Proof.
  intros Hrest.
  induction d; simpl; rewrite ?IHd; try reflexivity.
  destruct rest as [ | c r]; simpl in *; [reflexivity | ].
  rewrite Hrest. reflexivity.
Qed.

Lemma to_uint_not_D0 p d : Pos.to_uint p <> D0 d.
Proof.
  intros E.
  assert (Hn : unorm (Pos.to_uint p) = Pos.to_uint p).
  { rewrite <- DecimalPos.Unsigned.to_of, DecimalPos.Unsigned.of_to.
    reflexivity. }
  rewrite E, unorm_D0 in Hn. unfold unorm in Hn.
  destruct (nzhead d) eqn:Ez;
    try (apply (nzhead_nonzero d d); congruence).
  injection Hn as <-.
  apply (DecimalPos.Unsigned.to_uint_nonzero p). exact E.
Qed.

Lemma scan_int_pos p rest :
  no_digit_head rest ->
  scan_int (uint_str (Pos.to_uint p) ++ rest) = Some (Zpos p, rest)
  /\ scan_int (45 :: uint_str (Pos.to_uint p) ++ rest) = Some (Zneg p, rest).
Proof.
  intros Hrest.
  pose proof (DecimalPos.Unsigned.of_to p) as Hof.
  pose proof (to_uint_not_D0 p) as H0.
  pose proof (DecimalPos.Unsigned.to_uint_nonnil p) as Hnil.
  change (N.of_uint (Pos.to_uint p) = N.pos p) in Hof.
  destruct (Pos.to_uint p) as [ | u | u | u | u | u | u | u | u | u | u ];
    [ congruence | exfalso; eapply H0; reflexivity | .. ];
    unfold scan_int; cbn [uint_str app]; cbv beta iota;
    match goal with
    | |- context [read_digits (?c :: ?t)] =>
        change (read_digits (c :: t))
          with (let '(d, r') := read_digits t in
                (match digit_of c with Some dg => dg | None => D0 end d, r'))
    end;
    rewrite read_digits_uint by trivial;
    cbv beta iota delta [digit_of]; cbn [N.eqb Pos.eqb];
    cbv beta iota; rewrite Hof; split; reflexivity.
Qed.

Lemma scan_int_repr z rest :
  no_digit_head rest -> scan_int (int_repr z ++ rest) = Some (z, rest).
Proof.
  intros Hrest. destruct z as [ | p | p]; [reflexivity | | ];
    apply scan_int_pos; trivial.
Qed.

(** ** Values: [scan_once] reads back what [dumps] wrote *)

(** Induction on a value, with the hypothesis for every element of a list
    and every member of a dict. *)
Lemma pyval_nested_ind (P : pyval -> Prop) :
  P PNone -> (forall b, P (PBool b)) -> (forall z, P (PInt z)) ->
  (forall s, P (PStr s)) ->
  (forall l, Forall P l -> P (PList l)) ->
  (forall d, Forall (fun kv => P (snd kv)) d -> P (PDict d)) ->
  forall v, P v.
Proof.
  intros HN HB HI HS HL HD.
  fix IH 1.
  intros [ | b | z | s | l | d];
    [ exact HN | apply HB | apply HI | apply HS | apply HL | apply HD ].
  - induction l as [ | x l IHl]; constructor; [apply IH | exact IHl].
  - induction d as [ | [k x] d IHd]; constructor; [apply IH | exact IHd].
Qed.

Lemma int_repr_head z :
  exists c r, int_repr z = c :: r /\ (c = 45 \/ 48 <= c <= 57).
Proof.
  destruct z as [ | p | p]; simpl.
  - exists 48, []. split; [reflexivity | lia].
  - pose proof (to_uint_not_D0 p) as H0.
    pose proof (DecimalPos.Unsigned.to_uint_nonnil p) as Hnil.
    destruct (Pos.to_uint p); [congruence | exfalso; eapply H0; reflexivity | ..];
      simpl; eexists _, _; (split; [reflexivity | lia]).
  - eexists _, _. split; [reflexivity | lia].
Qed.

Lemma dumps_head v : exists c r, dumps v = c :: r /\ value_start c = true.
Proof.
  destruct v as [ | [ | ] | z | s | l | d];
    try (eexists _, _; split; reflexivity).
  destruct (int_repr_head z) as [c [r [E Hc]]]. exists c, r.
  split; [exact E | ]. unfold value_start.
  destruct Hc as [-> | Hc]; [reflexivity | ].
  destruct (N.leb_spec 48 c); destruct (N.leb_spec c 57); lia.
Qed.

Lemma value_start_facts c :
  value_start c = true ->
  is_ws c = false /\ (c =? 93) = false /\ (c =? 125) = false
  /\ (c =? 0xFEFF) = false.
Proof.
  unfold value_start, is_ws. intros H.
  repeat match type of H with
         | (_ || _ = true) => apply orb_prop in H as [H | H]
         | ((_ =? _) = true) => apply N.eqb_eq in H; subst c
         end;
    try (repeat split; reflexivity).
  apply andb_prop in H as [H1%N.leb_le H2%N.leb_le].
  repeat split; cmp_cases.
Qed.

Lemma skip_ws_start c r : is_ws c = false -> skip_ws (c :: r) = c :: r.
Proof. intros H. simpl. rewrite H. reflexivity. Qed.

Lemma skip_ws_dumps v rest : skip_ws (dumps v ++ rest) = dumps v ++ rest.
Proof.
  destruct (dumps_head v) as (c & r & -> & Hc).
  apply value_start_facts in Hc as (Hc & _). apply skip_ws_start, Hc.
Qed.

Lemma escape_char_length c : (1 <= length (escape_char c))%nat.
Proof.
  unfold escape_char.
  repeat match goal with
         | |- context [if ?b then _ else _] => destruct b
         end; simpl; lia.
Qed.

Lemma flat_map_escape_length s :
  (length s <= length (flat_map escape_char s))%nat.
Proof.
  induction s as [ | c s IH]; simpl; [lia | ].
  rewrite length_app. pose proof (escape_char_length c). lia.
Qed.

Lemma scan_once_unfold f c r :
  scan_once (S f) (c :: r) =
    if c =? 34 then
      '(k, rest) ← scanstring (S (length r)) r; Some (PStr k, rest)
    else if c =? 123 then
      match skip_ws r with
      | c1 :: r1 =>
          if c1 =? 125 then Some (PDict [], r1)
          else if c1 =? 34 then parse_members f r1 []
          else None
      | [] => None
      end
    else if c =? 91 then
      match skip_ws r with
      | c1 :: r1 =>
          if c1 =? 93 then Some (PList [], r1)
          else parse_elems f (c1 :: r1) []
      | [] => None
      end
    else if c =? 110 then
      rest ← strip_prefix (lit "null") (c :: r); Some (PNone, rest)
    else if c =? 116 then
      rest ← strip_prefix (lit "true") (c :: r); Some (PBool true, rest)
    else if c =? 102 then
      rest ← strip_prefix (lit "false") (c :: r); Some (PBool false, rest)
    else
      '(z, rest) ← scan_int (c :: r); Some (PInt z, rest).
Proof. reflexivity. Qed.

Lemma parse_elems_unfold f s acc :
  parse_elems (S f) s acc =
    '(v, r) ← scan_once f s;
    match skip_ws r with
    | c :: r1 =>
        if c =? 93 then Some (PList (acc ++ [v]), r1)
        else if c =? 44 then parse_elems f (skip_ws r1) (acc ++ [v])
        else None
    | [] => None
    end.
Proof. reflexivity. Qed.

Lemma parse_members_unfold f s acc :
  parse_members (S f) s acc =
    '(k, r) ← scanstring (S (length s)) s;
    match skip_ws r with
    | c :: r1 =>
        if c =? 58 then
          '(v, r2) ← scan_once f (skip_ws r1);
          match skip_ws r2 with
          | c2 :: r3 =>
              if c2 =? 125 then Some (PDict (dict_set acc k v), r3)
              else if c2 =? 44 then
                match skip_ws r3 with
                | c3 :: r4 =>
                    if c3 =? 34 then parse_members f r4 (dict_set acc k v)
                    else None
                | [] => None
                end
              else None
          | [] => None
          end
        else None
    | [] => None
    end.
Proof. reflexivity. Qed.

(** Side conditions of the loop lemmas. *)
Ltac side := first [assumption | reflexivity | discriminate | lia].

Lemma join_cons2 sep (x y : str) l :
  join sep (x :: y :: l) = x ++ sep ++ join sep (y :: l).
Proof. reflexivity. Qed.

Lemma skip_ws_space s : skip_ws (32 :: s) = skip_ws s.
Proof. reflexivity. Qed.

Lemma skip_ws_join_dumps x l rest :
  skip_ws (join (lit ", ") (map dumps (x :: l)) ++ rest)
  = join (lit ", ") (map dumps (x :: l)) ++ rest.
Proof.
  destruct l as [ | y l]; cbn [map].
  - apply skip_ws_dumps.
  - rewrite join_cons2, <- app_assoc. apply skip_ws_dumps.
Qed.

Lemma parse_elems_join l :
  Forall reads_back l -> l <> [] ->
  forall acc fuel rest,
    forallb valid l = true ->
    (list_sum (map (fun x => S (size x)) l) <= fuel)%nat ->
    parse_elems fuel (join (lit ", ") (map dumps l) ++ 93 :: rest) acc
    = Some (PList (acc ++ l), rest).
Proof.
  induction 1 as [ | x l Hx Hl IH]; [congruence | ].
  intros _ acc fuel rest Hv Hfuel.
  cbn [forallb] in Hv. apply andb_prop in Hv as [Hvx Hvl].
  simpl in Hfuel.
  destruct fuel as [ | f]; [lia | ].
  rewrite parse_elems_unfold. destruct l as [ | y l].
  - cbn [map join]. rewrite (Hx f (93 :: rest)) by side.
    reflexivity.
  - cbn [map]. rewrite join_cons2, <- !app_assoc.
    change (lit ", ") with [44; 32]. cbn [app].
    rewrite (Hx f) by side.
    cbv beta iota delta [mbind option_bind].
    rewrite skip_ws_start by reflexivity.
    change (44 =? 93) with false. change (44 =? 44) with true. cbv iota.
    rewrite skip_ws_space.
    change (dumps y :: map dumps l) with (map dumps (y :: l)).
    change [44; 32] with (lit ", "). rewrite skip_ws_join_dumps.
    rewrite IH by side.
    rewrite <- app_assoc. reflexivity.
Qed.

Lemma member_tail k v rest :
  member (k, v) ++ rest
  = 34 :: flat_map escape_char k ++ 34 :: 58 :: 32 :: dumps v ++ rest.
Proof.
  unfold member, encode_basestring_ascii. cbn [fst snd].
  change (lit ": ") with [58; 32]. cbn [app].
  rewrite <- !app_assoc. reflexivity.
Qed.

Lemma members_head kv (d : list (str * pyval)) rest :
  join (lit ", ") (map member (kv :: d)) ++ rest
  = 34 :: tail (join (lit ", ") (map member (kv :: d)) ++ rest).
Proof.
  destruct kv as [k v]. destruct d as [ | kv' d]; cbn [map].
  - cbn [join]. rewrite member_tail. reflexivity.
  - rewrite join_cons2, <- app_assoc, member_tail. reflexivity.
Qed.

Lemma parse_members_join d :
  Forall (fun kv => reads_back (snd kv)) d -> d <> [] ->
  forall acc fuel rest,
    forallb (fun kv => str_ok (fst kv) && valid (snd kv)) d = true ->
    (list_sum (map (fun kv => S (size (snd kv))) d) <= fuel)%nat ->
    parse_members fuel
      (tail (join (lit ", ") (map member d) ++ 125 :: rest)) acc
    = Some (PDict (fold_left put d acc), rest).
Proof.
  induction 1 as [ | [k v] d Hx Hd IH]; [congruence | ].
  intros _ acc fuel rest Hv Hfuel.
  cbn [forallb fst snd] in Hv. apply andb_prop in Hv as [Hvx Hvd].
  apply andb_prop in Hvx as [Hk Hvv].
  simpl in Hfuel. cbn [snd] in Hx.
  destruct fuel as [ | f]; [lia | ].
  rewrite parse_members_unfold.
  assert (Hscan : forall R,
    scanstring (S (length (flat_map escape_char k ++ 34 :: R)))
      (flat_map escape_char k ++ 34 :: R) = Some (k, R)).
  { intros R. apply scanstring_encoded; [exact Hk | ].
    rewrite length_app. pose proof (flat_map_escape_length k). lia. }
  destruct d as [ | kv' d].
  - cbn [map join]. rewrite member_tail. cbn [tail].
    rewrite Hscan. cbv beta iota delta [mbind option_bind].
    rewrite skip_ws_start by reflexivity.
    change (58 =? 58) with true. cbv iota.
    rewrite skip_ws_space, skip_ws_dumps.
    rewrite (Hx f (125 :: rest)) by side.
    reflexivity.
  - cbn [map]. rewrite join_cons2, <- !app_assoc, member_tail. cbn [tail].
    rewrite Hscan. cbv beta iota delta [mbind option_bind].
    rewrite skip_ws_start by reflexivity.
    change (58 =? 58) with true. cbv iota.
    rewrite skip_ws_space, skip_ws_dumps.
    change (lit ", ") with [44; 32]. cbn [app].
    rewrite (Hx f) by side.
    rewrite skip_ws_start by reflexivity.
    change (44 =? 125) with false. change (44 =? 44) with true. cbv iota.
    rewrite skip_ws_space.
    change (member kv' :: map member d) with (map member (kv' :: d)).
    change [44; 32] with (lit ", ").
    rewrite members_head, skip_ws_start by reflexivity.
    change (34 =? 34) with true. cbv iota.
    rewrite IH by side. reflexivity.
Qed.

Lemma dict_set_fresh acc k v :
  k ∉ map fst acc -> dict_set acc k v = acc ++ [(k, v)].
Proof.
  induction acc as [ | [k' v'] acc IH]; intros Hk; [reflexivity | ].
  cbn [map fst] in Hk. apply not_elem_of_cons in Hk as [Hne Hk].
  cbn [dict_set]. unfold str_eqb. rewrite bool_decide_eq_false_2 by exact Hne.
  rewrite IH by exact Hk. reflexivity.
Qed.

Lemma fold_put_fresh d : forall acc,
  NoDup (map fst acc ++ map fst d) -> fold_left put d acc = acc ++ d.
Proof.
  induction d as [ | [k v] d IH]; intros acc Hnd.
  - rewrite app_nil_r. reflexivity.
  - cbn [fold_left]. unfold put at 2. cbn [fst snd].
    cbn [map fst] in Hnd.
    assert (Hk : k ∉ map fst acc).
    { apply NoDup_app in Hnd as (_ & Hdisj & _).
      intros Hin. apply (Hdisj k Hin). left. }
    rewrite dict_set_fresh by exact Hk.
    rewrite IH.
    + rewrite <- app_assoc. reflexivity.
    + rewrite map_app, <- app_assoc. exact Hnd.
Qed.

Lemma scan_once_dumps v : reads_back v.
Proof.
  induction v as [ | b | z | s | l IH | d IH] using pyval_nested_ind;
    intros fuel rest Hv Hrest Hfuel;
    (destruct fuel as [ | f]; [simpl in Hfuel; lia | ]).
  - reflexivity.
  - destruct b; reflexivity.
  - cbn [dumps]. destruct (int_repr_head z) as (c & r & E & Hc).
    pose proof (scan_int_repr z rest Hrest) as Hscan.
    rewrite E in *. cbn [app] in *. rewrite scan_once_unfold, Hscan.
    destruct Hc as [-> | Hc]; [reflexivity | ].
    cmp_cases.
  - cbn [dumps]. unfold encode_basestring_ascii.
    cbn [app]. rewrite <- app_assoc. cbn [app].
    rewrite scan_once_unfold. change (34 =? 34) with true. cbv iota.
    rewrite scanstring_encoded; [reflexivity | exact Hv | ].
    rewrite length_app. pose proof (flat_map_escape_length s). lia.
  - cbn [dumps valid] in *. simpl in Hfuel. cbn [app].
    rewrite <- app_assoc. cbn [app]. rewrite scan_once_unfold.
    change (91 =? 34) with false. change (91 =? 123) with false.
    change (91 =? 91) with true. cbv iota.
    destruct l as [ | x l]; [reflexivity | ].
    rewrite skip_ws_join_dumps.
    pose proof (parse_elems_join (x :: l) IH ltac:(discriminate) [] f rest
                  Hv ltac:(lia)) as Hp.
    destruct (dumps_head x) as (c & r & E & Hc).
    apply value_start_facts in Hc as (_ & Hc & _).
    assert (Hj : exists r', join (lit ", ") (map dumps (x :: l)) ++ 93 :: rest
                            = c :: r').
    { destruct l; cbn [map]; [cbn [join] | rewrite join_cons2];
        rewrite E; eexists; reflexivity. }
    destruct Hj as [r' Hj]. rewrite Hj in *. rewrite Hc. exact Hp.
  - cbn [dumps valid] in *. simpl in Hfuel. cbn [app].
    rewrite <- app_assoc. cbn [app]. rewrite scan_once_unfold.
    change (123 =? 34) with false. change (123 =? 123) with true. cbv iota.
    destruct d as [ | kv d]; [reflexivity | ].
    apply andb_prop in Hv as [Hnd Hv]. apply bool_decide_eq_true in Hnd.
    change (fun kv => encode_basestring_ascii kv.1 ++ lit ": " ++ dumps kv.2)
      with member.
    rewrite members_head, skip_ws_start by reflexivity.
    change (34 =? 125) with false. change (34 =? 34) with true. cbv iota.
    rewrite (parse_members_join (kv :: d) IH) by side.
    rewrite fold_put_fresh by exact Hnd. reflexivity.
Qed.

Lemma size_le_length v : (size v <= length (dumps v))%nat.
Proof.
  induction v as [ | b | z | s | l IH | d IH] using pyval_nested_ind.
  - simpl. lia.
  - destruct b; simpl; lia.
  - destruct (int_repr_head z) as (c & r & E & _). cbn [dumps size].
    rewrite E. simpl. lia.
  - simpl. lia.
  - cbn [dumps size]. cbn [length]. rewrite length_app. cbn [length].
    enough (list_sum (map (fun x => S (size x)) l)
            <= S (length (join (lit ", ") (map dumps l))))%nat by lia.
    induction IH as [ | x l Hx Hl IHl]; [simpl; lia | ].
    destruct l as [ | y l].
    + simpl. simpl in Hx. lia.
    + cbn [map]. rewrite join_cons2, !length_app.
      change (length (lit ", ")) with 2%nat.
      cbn [map] in IHl. simpl list_sum in *. lia.
  - cbn [dumps size]. cbn [length]. rewrite length_app. cbn [length].
    change (fun kv => encode_basestring_ascii kv.1 ++ lit ": " ++ dumps kv.2)
      with member.
    apply le_n_S. rewrite Nat.add_1_r.
    assert (Hm : forall kv, (length (dumps (snd kv)) <= length (member kv))%nat).
    { intros kv. unfold member. rewrite !length_app. lia. }
    induction IH as [ | x l Hx Hl IHl]; [simpl; lia | ].
    pose proof (Nat.le_trans _ _ _ Hx (Hm x)) as Hxm.
    destruct l as [ | y l].
    + simpl list_sum. cbn [map join]. rewrite Nat.add_0_r.
      apply le_n_S. exact Hxm.
    + cbn [map]. rewrite join_cons2, !length_app.
      change (length (lit ", ")) with 2%nat.
      cbn [map] in IHl. simpl list_sum in *.
      apply le_n_S, Nat.add_le_mono; [exact Hxm | ].
      etransitivity; [exact IHl | ]. apply le_S, le_n.
Qed.

(** [json.loads(json.dumps(v)) == v] *)
Lemma loads_dumps v : valid v = true -> loads (dumps v) = Some v.
Proof.
  intros Hv. unfold loads.
  destruct (dumps_head v) as (c & r & E & Hc).
  pose proof (value_start_facts c Hc) as (_ & _ & _ & Hbom).
  pose proof (skip_ws_dumps v []) as Hws. rewrite app_nil_r in Hws.
  pose proof (scan_once_dumps v (S (length (dumps v))) [] Hv I
                ltac:(pose proof (size_le_length v); lia)) as Hs.
  rewrite app_nil_r in Hs. rewrite Hws, Hs.
  rewrite E. cbn [starts_with_bom]. rewrite Hbom. reflexivity.
Qed.

(** ** Bytes: the text of a value is ASCII, which UTF-8 carries unchanged *)

Lemma byte_of_to_N c : c < 256 -> Byte.to_N (byte_of c) = c.
Proof.
  intros Hc. unfold byte_of. destruct (Byte.of_N c) as [b | ] eqn:E.
  - apply Byte.to_of_N. exact E.
  - apply Byte.of_N_None_iff in E. lia.
Qed.

Lemma utf8_encode_ascii s :
  ascii_text s -> utf8_encode s = Some (map byte_of s).
Proof.
  induction 1 as [ | c s Hc Hs IH]; [reflexivity | ].
  cbn [utf8_encode]. unfold utf8_encode_char.
  destruct (N.ltb_spec c 0x80); [ | lia]. rewrite IH. reflexivity.
Qed.

Lemma utf8_decode_ascii s :
  ascii_text s -> utf8_decode (map byte_of s) = Some s.
Proof.
  unfold utf8_decode.
  induction 1 as [ | c s Hc Hs IH]; [reflexivity | ].
  cbn [map utf8_decode_N]. rewrite byte_of_to_N by lia.
  destruct (N.ltb_spec c 0x80); [ | lia]. rewrite IH. reflexivity.
Qed.

Lemma escape_char_ascii c : ascii_text (escape_char c).
Proof.
  unfold escape_char, u_escape, hex4, ascii_text.
  repeat match goal with
         | |- context [if ?b then _ else _] => destruct b eqn:?
         end;
    cbn [app]; repeat constructor;
    try (apply hex_digit_ascii, N.mod_lt; discriminate); try lia.
  match goal with
  | H : (_ && (c <=? 126)) = true |- _ =>
      apply andb_prop in H as [_ Hle%N.leb_le]; lia
  end.
Qed.

Lemma uint_str_ascii d : ascii_text (uint_str d).
Proof. induction d; cbn [uint_str]; constructor; trivial; lia. Qed.

Lemma join_ascii sep items :
  ascii_text sep -> Forall ascii_text items -> ascii_text (join sep items).
Proof.
  intros Hsep. induction 1 as [ | x l Hx Hl IH]; [constructor | ].
  destruct l as [ | y l]; [exact Hx | ].
  rewrite join_cons2. apply Forall_app. split; [exact Hx | ].
  apply Forall_app. split; [exact Hsep | exact IH].
Qed.

Lemma lit_sep_ascii : ascii_text (lit ", ") /\ ascii_text (lit ": ").
Proof. split; repeat constructor. Qed.

Lemma encode_basestring_ascii_ascii s : ascii_text (encode_basestring_ascii s).
Proof.
  unfold encode_basestring_ascii. constructor; [lia | ].
  apply Forall_app. split; [ | repeat constructor].
  induction s as [ | c s IH]; [constructor | ].
  cbn [flat_map]. apply Forall_app. split; [apply escape_char_ascii | exact IH].
Qed.

Lemma dumps_ascii v : ascii_text (dumps v).
Proof.
  induction v as [ | b | z | s | l IH | d IH] using pyval_nested_ind.
  - repeat constructor.
  - destruct b; repeat constructor.
  - destruct z; cbn [dumps int_repr];
      repeat (first [apply uint_str_ascii | constructor; [lia | ]]);
      constructor.
  - apply encode_basestring_ascii_ascii.
  - cbn [dumps]. constructor; [lia | ]. apply Forall_app.
    split; [ | repeat constructor].
    apply join_ascii; [apply lit_sep_ascii | ].
    apply Forall_map. exact IH.
  - cbn [dumps]. constructor; [lia | ]. apply Forall_app.
    split; [ | repeat constructor].
    apply join_ascii; [apply lit_sep_ascii | ].
    apply Forall_map. eapply Forall_impl; [exact IH | ].
    intros kv Hkv. cbv beta. apply Forall_app.
    split; [apply encode_basestring_ascii_ascii | ].
    apply Forall_app. split; [apply lit_sep_ascii | exact Hkv].
Qed.

(** [json.dumps(obj).encode('utf-8')] never raises. *)
Lemma encode_utf8_dumps {S} v (s : S) :
  encode_utf8 (dumps v) s = (s, Ret (map byte_of (dumps v))).
Proof.
  unfold encode_utf8. rewrite utf8_encode_ascii by apply dumps_ascii.
  reflexivity.
Qed.

(** Decoding the bytes of an encoded dict gives the dict back. *)
Lemma parse_object_dumps W d :
  valid (PDict d) = true ->
  parse_object W (map byte_of (dumps (PDict d))) = inr d.
Proof.
  intros Hv. unfold parse_object.
  rewrite utf8_decode_ascii by apply dumps_ascii.
  rewrite loads_dumps by exact Hv. reflexivity.
Qed.

(** * Computations: how [bind] and [try_except] step *)

Section steps.
Context {S A B : Type}.
Implicit Types (m : M S A) (k : A -> M S B) (s : S).

Lemma bind_ret m k s s' a :
  m s = (s', Ret a) -> (m ≫= k) s = k a s'.
Proof. intros E. unfold mbind, M_bind, bind. rewrite E. reflexivity. Qed.

Lemma bind_raise m k s s' e :
  m s = (s', Raise e) -> (m ≫= k) s = (s', Raise e).
Proof. intros E. unfold mbind, M_bind, bind. rewrite E. reflexivity. Qed.

Lemma bind_hang m k s s' :
  m s = (s', Hang) -> (m ≫= k) s = (s', Hang).
Proof. intros E. unfold mbind, M_bind, bind. rewrite E. reflexivity. Qed.


Lemma try_except_raise m (h : exn -> M S A) s s' e :
  m s = (s', Raise e) -> try_except m h s = h e s'.
Proof. intros E. unfold try_except. rewrite E. reflexivity. Qed.

Lemma try_except_hang m (h : exn -> M S A) s s' :
  m s = (s', Hang) -> try_except m h s = (s', Hang).
Proof. intros E. unfold try_except. rewrite E. reflexivity. Qed.
End steps.

Lemma lift_outcome {A} (m : M Env A) w e' o :
  m (env w) = (e', o) -> lift m w = ({| env := e'; trace := trace w |}, o).
Proof. intros E. unfold lift. rewrite E. reflexivity. Qed.


(** * The wire format *)

Lemma response_to_bytes {S} (self : Response.t) (s : S) :
  Response.to_bytes self s
  = (s, Ret (map byte_of (dumps (Response.to_bytes_obj self)))).
Proof. apply encode_utf8_dumps. Qed.

Lemma request_to_bytes {S} (self : Request.t) (s : S) :
  Request.to_bytes self s
  = (s, Ret (map byte_of (dumps (Request.to_bytes_obj self)))).
Proof. apply encode_utf8_dumps. Qed.

Lemma request_from_bytes_object W data obj s :
  parse_object W data = inr obj ->
  Request.from_bytes W data s
  = ({| clock_reads := S (clock_reads s); uuid_draws := S (uuid_draws s) |},
     Ret (Request.mk (get obj (lit "method") (PStr []))
            (get obj (lit "params") (PDict []))
            (get obj (lit "id") (PStr (uuid4 W (uuid_draws s))))
            (get obj (lit "jsonrpc") (PStr (lit "2.0")))
            ∅ (clock W (clock_reads s)))).
Proof. intros E. unfold Request.from_bytes. rewrite E. reflexivity. Qed.



Lemma request_from_bytes_metadata W data s s' r :
  Request.from_bytes W data s = (s', Ret r) -> Request.metadata r = ∅.
Proof.
  unfold Request.from_bytes. destruct (parse_object W data); [discriminate | ].
  intros E. injection E as _ <-. reflexivity.
Qed.

(** * Claims about the codec *)

(** C10, as stated, fails on a response that carries both [result] and
    [error]: [both_set] has both, and it is encoded as an error envelope in
    which the result does not appear, not as a success envelope. *)
Lemma both_set_is_an_error_envelope :
  is_set (Response.result both_set) = true
  /\ is_set (Response.error both_set) = true
  /\ Response.to_bytes both_set ()
     = ((), Ret (json_text
          "{'jsonrpc': '2.0', 'id': '1', 'error': {'code': 1, 'message': 'x'}}"))
  /\ Response.to_bytes both_set ()
     <> ((), Ret (json_text "{'jsonrpc': '2.0', 'id': '1', 'result': 1}")).
Proof.
  assert (E : Response.to_bytes both_set ()
              = ((), Ret (json_text
                   "{'jsonrpc': '2.0', 'id': '1', 'error': {'code': 1, 'message': 'x'}}")))
    by (vm_compute; reflexivity).
  split; [reflexivity | ]. split; [reflexivity | ]. split; [exact E | ].
  rewrite E. vm_compute. discriminate.
Qed.

(** C10, amended: [Response.to_bytes] always returns, and the envelope is
    [jsonrpc], [id] and one more member: [error] with the error value when
    the error is truthy, whatever the result is, and [result] with the
    result value ([null] when unset) otherwise, which includes an error that
    is an empty mapping. *)
Theorem to_bytes_error_iff_truthy {S} (self : Response.t) (s : S) :
  Response.to_bytes self s
  = (s, Ret (map byte_of (dumps (PDict
       [(lit "jsonrpc", Response.jsonrpc self);
        (lit "id", Response.id self);
        if truthy (Response.error self)
        then (lit "error", Response.error self)
        else (lit "result", Response.result self)])))).
Proof.
  rewrite response_to_bytes. unfold Response.to_bytes_obj.
  destruct (truthy (Response.error self)); reflexivity.
Qed.

(** C6, as stated, fails on what [Response.from_bytes] builds: a reply with
    both members gives a response with both fields set, and a reply with
    neither gives a response with neither. *)
Lemma decoded_response_both_or_neither :
  (exists s r,
     Response.from_bytes (sample_environ IOBlocked)
       (json_text "{'jsonrpc': '2.0', 'id': 1, 'result': 1, 'error': {'code': 1}}")
       (sources (env start)) = (s, Ret r)
     /\ is_set (Response.result r) = true
     /\ is_set (Response.error r) = true)
  /\ (exists s r,
        Response.from_bytes (sample_environ IOBlocked)
          (json_text "{'jsonrpc': '2.0', 'id': 1}")
          (sources (env start)) = (s, Ret r)
        /\ is_set (Response.result r) = false
        /\ is_set (Response.error r) = false).
Proof.
  split; eexists _, _; (split; [vm_compute; reflexivity | ]);
    split; reflexivity.
Qed.

(** C6, amended: the response that [Response.error(message, code)] builds
    has [error] set and [result] unset, and the envelope that [to_bytes]
    writes for any response has exactly one of the members [result] and
    [error]. *)
Theorem one_of_result_error W (message : str) (code : Z) (s : Sources)
  (self : Response.t) :
  (exists s' r,
     Response.make_error W message code s = (s', Ret r)
     /\ is_set (Response.result r) = false
     /\ is_set (Response.error r) = true)
  /\ (exists obj,
        Response.to_bytes_obj self = PDict obj
        /\ (dict_get obj (lit "result") = None
            <-> dict_get obj (lit "error") <> None)).
Proof.
  split.
  - eexists _, _. split; [reflexivity | ]. split; reflexivity.
  - unfold Response.to_bytes_obj.
    destruct (truthy (Response.error self)); eexists; (split; [reflexivity | ]);
      vm_compute; split; congruence.
Qed.




(** C7, as stated, fails on a request that a stage has annotated:
    [tagged] is encoded and decoded at a clock reading equal to its
    timestamp, and the result differs from it, its metadata being empty. *)
Lemma tagged_does_not_round_trip :
  exists data s r,
    Request.to_bytes tagged () = ((), Ret data)
    /\ Request.from_bytes (sample_environ IOBlocked) data
         (sources (env start)) = (s, Ret r)
    /\ Request.timestamp r = Request.timestamp tagged
    /\ Request.metadata r = ∅
    /\ Request.metadata tagged !! lit "user" = Some (MVal (PStr (lit "alice")))
    /\ r <> tagged.
Proof.
  eexists _, _, _. split; [vm_compute; reflexivity | ].
  split; [vm_compute; reflexivity | ].
  split; [reflexivity | ]. split; [reflexivity | ].
  assert (Huser : Request.metadata tagged !! lit "user"
                  = Some (MVal (PStr (lit "alice"))))
    by apply lookup_insert_eq.
  split; [exact Huser | ].
  intros E.
  assert (Hempty : Request.metadata tagged = ∅) by (rewrite <- E; reflexivity).
  rewrite Hempty, lookup_empty in Huser. discriminate.
Qed.

(** C7, amended: for a request whose wire fields are JSON values that
    [json] writes and reads back unchanged, decoding the encoding returns a
    request with the same [method], [params], [id] and [jsonrpc]; its
    metadata is empty and its timestamp is the clock reading at the time of
    decoding. *)
Theorem from_bytes_to_bytes W (req : Request.t) (s : Sources) :
  valid (Request.to_bytes_obj req) = true ->
  exists data,
    Request.to_bytes req s = (s, Ret data)
    /\ Request.from_bytes W data s
       = ({| clock_reads := S (clock_reads s);
             uuid_draws := S (uuid_draws s) |},
          Ret (Request.mk (Request.method req) (Request.params req)
                 (Request.id req) (Request.jsonrpc req)
                 ∅ (clock W (clock_reads s)))).
Proof.
  intros Hvalid. eexists. split; [apply request_to_bytes | ].
  unfold Request.to_bytes_obj in *.
  rewrite (request_from_bytes_object _ _ _ _ (parse_object_dumps W _ Hvalid)).
  reflexivity.
Qed.

Lemma from_bytes_to_bytes_witness :
  exists data,
    Request.to_bytes tagged (sources (env start))
    = (sources (env start), Ret data)
    /\ Request.from_bytes (sample_environ IOBlocked) data
         (sources (env start))
       = ({| clock_reads := 1; uuid_draws := 1 |},
          Ret (Request.mk (PStr (lit "tools/list")) (PDict []) (PInt 1)
                 (PStr (lit "2.0")) ∅ 0%Q)).
Proof.
  apply (from_bytes_to_bytes (sample_environ IOBlocked) tagged
           (sources (env start))).
  vm_compute. reflexivity.
Defined.

(** * The chain *)

Lemma lift_trace {A} (m : M Env A) w w' o :
  lift m w = (w', o) -> trace w' = trace w.
Proof.
  unfold lift. destruct (m (env w)) as [e' o']. intros E.
  injection E as <- _. reflexivity.
Qed.

Lemma run_request_app pre post request w :
  MiddlewareChain.run_request (pre ++ post) request w
  = (request' ← MiddlewareChain.run_request pre request;
     MiddlewareChain.run_request post request') w.
Proof.
  revert request w. induction pre as [ | [i mw] pre IH]; intros request w.
  - reflexivity.
  - cbn [app MiddlewareChain.run_request].
    unfold mbind, M_bind, bind, emit in *. cbn beta iota.
    destruct (lift (stage_request mw request) _) as [w1 [r1 | e | ]];
      [apply IH | reflexivity | reflexivity].
Qed.

Lemma run_request_trace stages request w w' r :
  MiddlewareChain.run_request stages request w = (w', Ret r) ->
  trace w' = trace w ++ map (fun s => EvRequest (fst s)) stages.
Proof.
  revert request w. induction stages as [ | [i mw] rest IH]; intros request w.
  - intros E. injection E as <- _. symmetry. apply app_nil_r.
  - cbn [MiddlewareChain.run_request].
    unfold mbind, M_bind, bind, emit. cbn beta iota.
    destruct (lift (stage_request mw request) _) as [w1 [r1 | e | ]] eqn:E1;
      [ | discriminate | discriminate].
    intros E. rewrite (IH _ _ E), (lift_trace _ _ _ _ E1).
    cbn [trace map fst]. rewrite <- app_assoc. reflexivity.
Qed.


Lemma zip_seq_app {A} (l1 l2 : list A) a :
  zip (seq a (length (l1 ++ l2))) (l1 ++ l2)
  = zip (seq a (length l1)) l1
    ++ zip (seq (a + length l1) (length l2)) l2.
Proof.
  rewrite length_app, seq_app. apply zip_with_app. apply length_seq.
Qed.

Lemma map_fst_zip_seq {A} (l : list A) a :
  map fst (zip (seq a (length l)) l) = seq a (length l).
Proof.
  revert a. induction l as [ | x l IH]; intros a; [reflexivity | ].
  cbn [length seq zip_with map fst]. rewrite IH. reflexivity.
Qed.


Lemma indexed_split pre mw post :
  MiddlewareChain.indexed (MiddlewareChain.mk (pre ++ mw :: post))
  = MiddlewareChain.indexed (MiddlewareChain.mk pre)
    ++ (length pre, mw)
       :: zip (seq (S (length pre)) (length post)) post.
Proof.
  unfold MiddlewareChain.indexed. cbn [MiddlewareChain.middleware].
  rewrite zip_seq_app. reflexivity.
Qed.

Lemma indexed_events (f : nat -> event) chain :
  map (fun s => f (fst s)) (MiddlewareChain.indexed chain)
  = map f (seq 0 (length (MiddlewareChain.middleware chain))).
Proof.
  unfold MiddlewareChain.indexed.
  rewrite <- (map_fst_zip_seq (MiddlewareChain.middleware chain) 0) at 2.
  rewrite map_map. reflexivity.
Qed.



(** * The proxy *)

Lemma receive W raw w s1 parsed :
  Request.from_bytes W raw (sources (env w)) = (s1, Ret parsed) ->
  lift (parsed ← draw (Request.from_bytes W raw); alloc parsed) w
  = (received w s1 parsed, Ret (length (heap (env w)))).
Proof.
  intros E. unfold lift, mbind, M_bind, bind, draw. rewrite E. reflexivity.
Qed.


(** The store after one more reading of the clock. *)
Lemma error_path W message w :
  (error_response ←
     lift (draw (Response.make_error W message
                   EnterpriseProxy.internal_error));
   Response.to_bytes error_response) w
  = ({| env :=
          {| heap := heap (env w);
             sources :=
               {| clock_reads := S (clock_reads (sources (env w)));
                  uuid_draws := uuid_draws (sources (env w)) |} |};
        trace := trace w |},
     Ret (error_envelope message)).
Proof.
  erewrite bind_ret by reflexivity. rewrite response_to_bytes. reflexivity.
Qed.

(** A stage of the chain raises: the answer of the proxy and the state it
    leaves. *)
Lemma abort_answer W self raw w s1 parsed pre mw post w2 r2 e3 exc :
  Request.from_bytes W raw (sources (env w)) = (s1, Ret parsed) ->
  MiddlewareChain.middleware (EnterpriseProxy.middleware self)
  = pre ++ mw :: post ->
  MiddlewareChain.process_request (MiddlewareChain.mk pre)
    (length (heap (env w))) (received w s1 parsed) = (w2, Ret r2) ->
  stage_request mw r2 (env w2) = (e3, Raise exc) ->
  EnterpriseProxy.handle_request W self raw w
  = ({| env :=
          {| heap := heap e3;
             sources :=
               {| clock_reads := S (clock_reads (sources e3));
                  uuid_draws := uuid_draws (sources e3) |} |};
        trace := trace w ++ map EvRequest (seq 0 (S (length pre))) |},
     Ret (error_envelope (exn_msg exc))).
Proof.
  intros Hparse Hchain Hpre Hmw.
  unfold EnterpriseProxy.handle_request.
  match goal with
  | |- try_except ?body _ _ = _ =>
      assert (Hbody : body w
                      = ({| env := e3;
                            trace := trace w
                                     ++ map EvRequest (seq 0 (S (length pre))) |},
                         Raise exc))
  end.
  { erewrite bind_ret by (apply receive, Hparse).
    erewrite bind_raise; [reflexivity | ].
    unfold MiddlewareChain.process_request, MiddlewareChain.indexed.
    rewrite Hchain, zip_seq_app, run_request_app.
    erewrite bind_ret by exact Hpre.
    cbn [length seq zip_with MiddlewareChain.run_request].
    unfold mbind, M_bind, bind, emit, lift. cbn [env trace].
    rewrite Hmw.
    rewrite (run_request_trace _ _ _ _ _ Hpre), indexed_events.
    cbn [received trace MiddlewareChain.middleware].
    change (0%nat :: seq 1 (length pre)) with (seq 0 (S (length pre))).
    rewrite seq_S, map_app, <- app_assoc. reflexivity. }
  rewrite (try_except_raise _ _ _ _ _ Hbody), error_path. reflexivity.
Qed.

(** C1: when a stage raises in [process_request], the stages before it
    having returned, [handle_request] returns the error envelope built from
    the message of the exception; [process_request] has been called on the
    stages up to that one only, and the router has not been called. *)
Theorem abort_stops_the_chain W (self : EnterpriseProxy.t) (raw : bytes)
  (w : World) (s1 : Sources) (parsed : Request.t)
  (pre : list stage) (mw : stage) (post : list stage)
  (w2 : World) (r2 : loc) (e3 : Env) (exc : exn) :
  Request.from_bytes W raw (sources (env w)) = (s1, Ret parsed) ->
  MiddlewareChain.middleware (EnterpriseProxy.middleware self)
  = pre ++ mw :: post ->
  MiddlewareChain.process_request (MiddlewareChain.mk pre)
    (length (heap (env w))) (received w s1 parsed) = (w2, Ret r2) ->
  stage_request mw r2 (env w2) = (e3, Raise exc) ->
  exists w',
    EnterpriseProxy.handle_request W self raw w
    = (w', Ret (error_envelope (exn_msg exc)))
    /\ trace w' = trace w ++ map EvRequest (seq 0 (S (length pre))).
Proof.
  intros Hparse Hchain Hpre Hmw. eexists. split.
  - eapply abort_answer; eassumption.
  - reflexivity.
Qed.

Lemma abort_stops_the_chain_witness :
  let W := sample_environ IOBlocked in
  exists w',
    EnterpriseProxy.handle_request W (guarded_proxy W) close_issue start
    = (w', Ret (error_envelope (lit "Approval required for issues.close")))
    /\ trace w' = [EvRequest 0; EvRequest 1; EvRequest 2].
Proof.
  intros W.
  pose (config := sample_config [lit "issues.close"]).
  pose (parsed := Request.mk (PStr (lit "issues.close")) (PDict []) (PInt 1)
                    (PStr (lit "2.0")) ∅ 0%Q).
  pose (s1 := {| clock_reads := 1; uuid_draws := 1 |}).
  pose (pre := [Stage (H := SecurityMiddleware_stage W)
                  (SecurityMiddleware.source (security config));
                Stage (H := ObservabilityMiddleware_stage W)
                  (ObservabilityMiddleware.mk (observability config))]).
  pose (mw := Stage (H := GovernanceMiddleware_stage W)
                (no_approval (governance config))).
  pose (post := [Stage (H := CostManagementMiddleware_stage W)
                   (CostManagementMiddleware.source (cost_management config))]).
  pose (w2 := fst (MiddlewareChain.process_request (MiddlewareChain.mk pre)
                     0%nat (received start s1 parsed))).
  pose (exc := Exn "PermissionError"
                 (lit "Approval required for issues.close")).
  apply (abort_stops_the_chain W (guarded_proxy W) close_issue start
           s1 parsed pre mw post w2 0%nat (env w2) exc);
    vm_compute; reflexivity.
Defined.

(** * The stages on the request that was just stored *)

Lemma lookup_last {A} (h : list A) (r : A) : (h ++ [r]) !! length h = Some r.
Proof. induction h as [ | x h IH]; [reflexivity | exact IH]. Qed.

Lemma insert_last {A} (h : list A) (r r' : A) :
  <[length h := r']> (h ++ [r]) = h ++ [r'].
Proof.
  induction h as [ | x h IH]; [reflexivity | ].
  cbn. f_equal. exact IH.
Qed.

Lemma load_last h r s :
  load (length h) {| heap := h ++ [r]; sources := s |}
  = ({| heap := h ++ [r]; sources := s |}, Ret r).
Proof. unfold load. cbn [heap]. rewrite lookup_last. reflexivity. Qed.

Lemma set_metadata_last h r s k v :
  set_metadata (length h) k v {| heap := h ++ [r]; sources := s |}
  = ({| heap := h ++ [annotated r k v]; sources := s |}, Ret ()).
Proof.
  unfold set_metadata. cbn [heap sources].
  rewrite lookup_last, insert_last. reflexivity.
Qed.

Lemma security_reject W sec h r s :
  falsy (SecurityMiddleware._authenticate sec r) = true ->
  SecurityMiddleware.process_request W sec (length h)
    {| heap := h ++ [r]; sources := s |}
  = ({| heap := h ++ [r]; sources := s |},
     Raise (Exn "PermissionError" (lit "Authentication failed"))).
Proof.
  intros Hauth. unfold SecurityMiddleware.process_request.
  erewrite bind_ret by apply load_last. rewrite Hauth. reflexivity.
Qed.

Lemma security_pass W sec h r s :
  falsy (SecurityMiddleware._authenticate sec r) = false ->
  rbac_enabled (SecurityMiddleware.config sec)
  && negb (SecurityMiddleware._authorize sec
             (default [] (SecurityMiddleware._authenticate sec r))
             (Request.method r)) = false ->
  SecurityMiddleware.process_request W sec (length h)
    {| heap := h ++ [r]; sources := s |}
  = ({| heap :=
          h ++ [annotated r (lit "user")
                  (MVal (PStr (default []
                                 (SecurityMiddleware._authenticate sec r))))];
        sources := s |},
     Ret (length h)).
Proof.
  intros Hauth Hrbac. unfold SecurityMiddleware.process_request.
  erewrite bind_ret by apply load_last. rewrite Hauth.
  erewrite bind_ret by apply set_metadata_last.
  rewrite Hrbac. reflexivity.
Qed.

Lemma observability_request W obs h r s :
  ObservabilityMiddleware.process_request W obs (length h)
    {| heap := h ++ [r]; sources := s |}
  = ({| heap :=
          h ++ [annotated r (lit "start_time")
                  (MFloat (clock W (clock_reads s)))];
        sources := tick s |},
     Ret (length h)).
Proof.
  unfold ObservabilityMiddleware.process_request.
  erewrite bind_ret by reflexivity.
  erewrite bind_ret by apply set_metadata_last.
  reflexivity.
Qed.

Lemma governance_block W gov h r s :
  GovernanceMiddleware._requires_approval gov r = true ->
  falsy (GovernanceMiddleware._get_approval gov r) = true ->
  GovernanceMiddleware.process_request W gov (length h)
    {| heap := h ++ [r]; sources := s |}
  = ({| heap := h ++ [r]; sources := s |},
     Raise (Exn "PermissionError"
              (lit "Approval required for "
                 ++ py_str W (MVal (Request.method r))))).
Proof.
  intros Hrule Hnone. unfold GovernanceMiddleware.process_request.
  erewrite bind_ret by apply load_last. rewrite Hrule, Hnone. reflexivity.
Qed.

(** * Claims about aborts *)

(** C4, as stated, fails when the governance stage aborts after the
    observability stage has been visited: [process_response] of no stage is
    called, the clock is read three times only (decoding, the start time,
    the error response) so no duration is measured, and the request has
    its [user] set. *)
Lemma abort_bypasses_process_response :
  let W := sample_environ IOBlocked in
  exists w',
    EnterpriseProxy.handle_request W (guarded_proxy W) close_issue start
    = (w', Ret (error_envelope (lit "Approval required for issues.close")))
    /\ trace w' = [EvRequest 0; EvRequest 1; EvRequest 2]
    /\ ~ In (EvResponse 1) (trace w')
    /\ clock_reads (sources (env w')) = 3%nat
    /\ (r ← heap (env w') !! 0%nat; Request.metadata r !! lit "user")
       = Some (MVal (PStr (lit "demo_user"))).
Proof.
  intros W. eexists. split; [vm_compute; reflexivity | ].
  split; [reflexivity | ].
  split; [cbn; intros [H | [H | [H | []]]]; discriminate | ].
  split; [reflexivity | ]. vm_compute. reflexivity.
Qed.

(** C4, amended: when the security stage, the first of the chain, aborts
    because the caller is not authenticated, [handle_request] returns the
    error envelope without calling [process_response] of any stage: only
    [process_request] of the security stage has been called, the clock is
    read once after decoding, for the error response, so no duration is
    measured, and the stored request is the decoded one, with no [user]
    in its metadata. *)
Theorem failed_authentication_answer W (self : EnterpriseProxy.t)
  (raw : bytes) (w : World) (s1 : Sources) (parsed : Request.t)
  (sec : SecurityMiddleware.t) (rest : list stage) :
  Request.from_bytes W raw (sources (env w)) = (s1, Ret parsed) ->
  MiddlewareChain.middleware (EnterpriseProxy.middleware self)
  = Stage (H := SecurityMiddleware_stage W) sec :: rest ->
  falsy (SecurityMiddleware._authenticate sec parsed) = true ->
  exists w',
    EnterpriseProxy.handle_request W self raw w
    = (w', Ret (error_envelope (lit "Authentication failed")))
    /\ trace w' = trace w ++ [EvRequest 0]
    /\ heap (env w') = heap (env w) ++ [parsed]
    /\ Request.metadata parsed !! lit "user" = None
    /\ clock_reads (sources (env w')) = S (clock_reads s1).
Proof.
  intros Hparse Hchain Hauth.
  assert (Hstage :
            stage_request (Stage (H := SecurityMiddleware_stage W) sec)
              (length (heap (env w))) (env (received w s1 parsed))
            = (env (received w s1 parsed),
               Raise (Exn "PermissionError" (lit "Authentication failed")))).
  { cbn [stage_request process_request SecurityMiddleware_stage
         received env].
    apply security_reject, Hauth. }
  pose proof (abort_answer W self raw w s1 parsed [] _ rest
                (received w s1 parsed) _ _ _
                Hparse Hchain eq_refl Hstage) as Hrun.
  eexists. split; [exact Hrun | ].
  cbn [trace env heap sources clock_reads received].
  split; [reflexivity | ]. split; [reflexivity | ].
  split; [ | reflexivity].
  rewrite (request_from_bytes_metadata _ _ _ _ _ Hparse).
  apply lookup_empty.
Qed.

Lemma failed_authentication_answer_witness :
  let W := sample_environ IOBlocked in
  let parsed := Request.mk (PStr (lit "tools/list")) (PDict []) (PInt 1)
                  (PStr (lit "2.0")) ∅ 0%Q in
  exists w',
    EnterpriseProxy.handle_request W (anonymous_proxy W) list_tools start
    = (w', Ret (error_envelope (lit "Authentication failed")))
    /\ trace w' = [EvRequest 0]
    /\ heap (env w') = [parsed]
    /\ Request.metadata parsed !! lit "user" = None
    /\ clock_reads (sources (env w')) = 2%nat.
Proof.
  intros W parsed.
  apply (failed_authentication_answer W (anonymous_proxy W) list_tools start
           {| clock_reads := 1; uuid_draws := 1 |} parsed
           (no_identity (security (sample_config [])))
           (tail (MiddlewareChain.middleware
                    (EnterpriseProxy.middleware (anonymous_proxy W)))));
    vm_compute; reflexivity.
Defined.

(** C8, as stated, fails when the rule matches and no approval is
    granted: the error response has the code -32603, the message names the
    operation, and the id is null where the request has 1. *)
Lemma approval_error_is_internal :
  let W := sample_environ IOBlocked in
  exists w',
    EnterpriseProxy.handle_request W (guarded_proxy W) close_issue start
    = (w', Ret (json_text
         "{'jsonrpc': '2.0', 'id': null, 'error': {'code': -32603, 'message': 'Approval required for issues.close'}}"))
    /\ json_text
         "{'jsonrpc': '2.0', 'id': null, 'error': {'code': -32603, 'message': 'Approval required for issues.close'}}"
       <> json_text
            "{'jsonrpc': '2.0', 'id': 1, 'error': {'code': -32001, 'message': 'approval required'}}".
Proof.
  intros W. eexists. split; [vm_compute; reflexivity | ].
  vm_compute. discriminate.
Qed.

(** C8, amended: with the four stages of the proxy, when the caller is
    authenticated and authorised, an approval rule lists the method of the
    request and no approval is granted, [handle_request] returns the error
    envelope with id null, code -32603 and the message "Approval required
    for " followed by the method; [process_request] has been called on the
    security, observability and governance stages only, and the router has
    not been called. *)
Theorem approval_required_answer W (self : EnterpriseProxy.t) (raw : bytes)
  (w : World) (s1 : Sources) (parsed : Request.t)
  (sec : SecurityMiddleware.t) (obs : ObservabilityMiddleware.t)
  (gov : GovernanceMiddleware.t) (cost : CostManagementMiddleware.t) :
  Request.from_bytes W raw (sources (env w)) = (s1, Ret parsed) ->
  EnterpriseProxy.middleware self = four_stages W sec obs gov cost ->
  falsy (SecurityMiddleware._authenticate sec parsed) = false ->
  rbac_enabled (SecurityMiddleware.config sec)
  && negb (SecurityMiddleware._authorize sec
             (default [] (SecurityMiddleware._authenticate sec parsed))
             (Request.method parsed)) = false ->
  GovernanceMiddleware._requires_approval gov parsed = true ->
  (forall r, Request.method r = Request.method parsed ->
             falsy (GovernanceMiddleware._get_approval gov r) = true) ->
  exists w',
    EnterpriseProxy.handle_request W self raw w
    = (w', Ret (error_envelope
                  (lit "Approval required for "
                     ++ py_str W (MVal (Request.method parsed)))))
    /\ trace w' = trace w ++ [EvRequest 0; EvRequest 1; EvRequest 2].
Proof.
  intros Hparse Hchain Hauth Hrbac Hrule Hnone.
  set (user := default [] (SecurityMiddleware._authenticate sec parsed)) in *.
  set (seen := annotated (annotated parsed (lit "user") (MVal (PStr user)))
                 (lit "start_time")
                 (MFloat (clock W (clock_reads s1)))).
  set (e2 := {| heap := heap (env w) ++ [seen]; sources := tick s1 |}).
  set (w2 := {| env := e2;
                trace := (trace w ++ [EvRequest 0]) ++ [EvRequest 1] |}).
  assert (Hpre :
            MiddlewareChain.process_request
              (MiddlewareChain.mk
                 [Stage (H := SecurityMiddleware_stage W) sec;
                  Stage (H := ObservabilityMiddleware_stage W) obs])
              (length (heap (env w))) (received w s1 parsed)
            = (w2, Ret (length (heap (env w))))).
  { unfold MiddlewareChain.process_request, MiddlewareChain.indexed.
    cbn [MiddlewareChain.middleware length seq zip_with
         MiddlewareChain.run_request].
    erewrite bind_ret by reflexivity.
    erewrite bind_ret
      by (apply lift_outcome; cbn [received env stage_request
                                   process_request SecurityMiddleware_stage];
          apply security_pass; assumption).
    erewrite bind_ret by reflexivity.
    erewrite bind_ret
      by (apply lift_outcome; cbn [env stage_request process_request
                                   ObservabilityMiddleware_stage];
          apply observability_request).
    reflexivity. }
  assert (Hstage :
            stage_request (Stage (H := GovernanceMiddleware_stage W) gov)
              (length (heap (env w))) (env w2)
            = (e2,
               Raise (Exn "PermissionError"
                        (lit "Approval required for "
                           ++ py_str W (MVal (Request.method parsed)))))).
  { cbn [env w2 stage_request process_request GovernanceMiddleware_stage].
    apply (governance_block W gov (heap (env w)) seen (tick s1));
      [exact Hrule | apply Hnone; reflexivity]. }
  assert (Hchain' :
            MiddlewareChain.middleware (EnterpriseProxy.middleware self)
            = [Stage (H := SecurityMiddleware_stage W) sec;
               Stage (H := ObservabilityMiddleware_stage W) obs]
              ++ Stage (H := GovernanceMiddleware_stage W) gov
              :: [Stage (H := CostManagementMiddleware_stage W) cost])
    by (rewrite Hchain; reflexivity).
  pose proof (abort_answer W self raw w s1 parsed _ _ _ w2 _ e2 _
                Hparse Hchain' Hpre Hstage) as Hrun.
  eexists. split; [exact Hrun | ].
  cbn [trace length seq map]. reflexivity.
Qed.

Lemma approval_required_answer_witness :
  let W := sample_environ IOBlocked in
  exists w',
    EnterpriseProxy.handle_request W (guarded_proxy W) close_issue start
    = (w', Ret (error_envelope (lit "Approval required for issues.close")))
    /\ trace w' = [EvRequest 0; EvRequest 1; EvRequest 2].
Proof.
  intros W.
  pose (config := sample_config [lit "issues.close"]).
  apply (approval_required_answer W (guarded_proxy W) close_issue start
           {| clock_reads := 1; uuid_draws := 1 |}
           (Request.mk (PStr (lit "issues.close")) (PDict []) (PInt 1)
              (PStr (lit "2.0")) ∅ 0%Q)
           (SecurityMiddleware.source (security config))
           (ObservabilityMiddleware.mk (observability config))
           (no_approval (governance config))
           (CostManagementMiddleware.source (cost_management config)));
    vm_compute; reflexivity.
Defined.

(** * The router and what comes back *)

Lemma forward_outcome W router data w :
  MCPRouter.forward W router data w
  = ({| env := env w; trace := trace w ++ [EvForward data] |},
     match backend W (MCPRouter.target_host router)
             (MCPRouter.target_port router) data with
     | IOReply response => Ret (take 4096 response)
     | IOError e => Raise e
     | IOBlocked => Hang
     end).
Proof.
  unfold MCPRouter.forward, mbind, M_bind, bind, emit, try_except.
  cbn beta iota.
  destruct (backend W _ _ data); reflexivity.
Qed.

(** The steps of [handle_request] up to the exchange with the target. *)
Lemma outgoing_steps {A} W self raw w s1 parsed w2 r2
  (k : loc -> bytes -> M World A) :
  Request.from_bytes W raw (sources (env w)) = (s1, Ret parsed) ->
  MiddlewareChain.process_request (EnterpriseProxy.middleware self)
    (length (heap (env w))) (received w s1 parsed) = (w2, Ret r2) ->
  (request ← lift (parsed ← draw (Request.from_bytes W raw); alloc parsed);
   processed_request ←
     MiddlewareChain.process_request (EnterpriseProxy.middleware self) request;
   outgoing ← lift (load processed_request);
   data ← Request.to_bytes outgoing;
   raw_response ← MCPRouter.forward W (EnterpriseProxy.router self) data;
   k request raw_response) w
  = (raw_response ←
       MCPRouter.forward W (EnterpriseProxy.router self)
         (map byte_of
            (dumps (Request.to_bytes_obj (default blank (heap (env w2) !! r2)))));
     k (length (heap (env w))) raw_response) w2.
Proof.
  intros Hparse Hchain.
  erewrite bind_ret by (apply receive, Hparse).
  erewrite bind_ret by exact Hchain.
  destruct w2 as [e2 t2].
  erewrite bind_ret by reflexivity.
  erewrite bind_ret by apply request_to_bytes.
  reflexivity.
Qed.

(** C9, as stated, fails when the target accepts the connection and never
    answers: [handle_request] does not return, there being no deadline. *)
Lemma silent_target_blocks_the_proxy :
  let W := sample_environ IOBlocked in
  snd (EnterpriseProxy.handle_request W (source_proxy W) list_tools start)
  = Hang.
Proof. vm_compute. reflexivity. Qed.

(** C9, amended: [forward] takes no deadline.  Once the request is decoded
    and the chain has processed it, the router is called with the encoded
    request; when the exchange raises, [handle_request] returns the error
    envelope, code -32603, built from the message of that exception; when
    the target never answers, [handle_request] does not return. *)
Theorem forward_failure_answer W (self : EnterpriseProxy.t) (raw : bytes)
  (w : World) (s1 : Sources) (parsed : Request.t) (w2 : World) (r2 : loc) :
  Request.from_bytes W raw (sources (env w)) = (s1, Ret parsed) ->
  MiddlewareChain.process_request (EnterpriseProxy.middleware self)
    (length (heap (env w))) (received w s1 parsed) = (w2, Ret r2) ->
  exists data,
    Request.to_bytes (default blank (heap (env w2) !! r2)) w2
    = (w2, Ret data)
    /\ match backend W (MCPRouter.target_host (EnterpriseProxy.router self))
               (MCPRouter.target_port (EnterpriseProxy.router self)) data with
       | IOError e =>
           exists w',
             EnterpriseProxy.handle_request W self raw w
             = (w', Ret (error_envelope (exn_msg e)))
             /\ trace w' = trace w2 ++ [EvForward data]
       | IOBlocked =>
           exists w',
             EnterpriseProxy.handle_request W self raw w = (w', Hang)
             /\ trace w' = trace w2 ++ [EvForward data]
       | IOReply _ => True
       end.
Proof.
  intros Hparse Hchain. eexists. split; [apply request_to_bytes | ].
  unfold EnterpriseProxy.handle_request.
  match goal with
  | |- context [backend W ?h ?p ?d] =>
      pose proof (forward_outcome W (EnterpriseProxy.router self) d w2) as Hf;
      destruct (backend W h p d) as [reply | e | ]
  end; [exact I | | ].
  - eexists. split.
    + erewrite try_except_raise; [apply error_path | ].
      rewrite (outgoing_steps W self raw w s1 parsed w2 r2 _ Hparse Hchain).
      erewrite bind_raise by exact Hf. reflexivity.
    + reflexivity.
  - eexists. split.
    + erewrite try_except_hang; [reflexivity | ].
      rewrite (outgoing_steps W self raw w s1 parsed w2 r2 _ Hparse Hchain).
      erewrite bind_hang by exact Hf. reflexivity.
    + reflexivity.
Qed.

Lemma forward_failure_answer_witness :
  let W := sample_environ (IOError refused) in
  exists w',
    EnterpriseProxy.handle_request W (source_proxy W) list_tools start
    = (w', Ret (error_envelope (lit "refused")))
    /\ trace w'
       = [EvRequest 0; EvRequest 1; EvRequest 2; EvRequest 3;
          EvForward
            (json_text
               "{'jsonrpc': '2.0', 'method': 'tools/list', 'params': {}, 'id': 1}")].
Proof.
  intros W.
  pose (parsed := Request.mk (PStr (lit "tools/list")) (PDict []) (PInt 1)
                    (PStr (lit "2.0")) ∅ 0%Q).
  pose (s1 := {| clock_reads := 1; uuid_draws := 1 |}).
  pose (ra := MiddlewareChain.process_request
                (EnterpriseProxy.middleware (source_proxy W)) 0%nat
                (received start s1 parsed)).
  assert (Hparse : Request.from_bytes W list_tools (sources (env start))
                   = (s1, Ret parsed)) by (vm_compute; reflexivity).
  assert (Hchain : ra = (fst ra, Ret 0%nat)) by (vm_compute; reflexivity).
  destruct (forward_failure_answer W (source_proxy W) list_tools start
              s1 parsed (fst ra) 0%nat Hparse Hchain)
    as (data & Hdata & Hio).
  cbv beta iota delta [backend W sample_environ] in Hio.
  destruct Hio as (w' & Hrun & Htrace).
  exists w'. split; [exact Hrun | ].
  rewrite Htrace.
  assert (Hbytes :
            Ret (A := bytes) data
            = Ret (json_text
                "{'jsonrpc': '2.0', 'method': 'tools/list', 'params': {}, 'id': 1}")).
  { apply (f_equal snd) in Hdata. cbn [snd] in Hdata. rewrite <- Hdata.
    vm_compute. reflexivity. }
  injection Hbytes as ->. vm_compute. reflexivity.
Defined.

(** * Where the id of a response comes from *)

Lemma bind_ret_inv {S A B} (m : M S A) (k : A -> M S B) s s' b :
  (m ≫= k) s = (s', Ret b) ->
  exists s1 a, m s = (s1, Ret a) /\ k a s1 = (s', Ret b).
Proof.
  unfold mbind, M_bind, bind.
  destruct (m s) as [s1 [a | e | ]]; intros E;
    [eauto | discriminate | discriminate].
Qed.

Lemma lift_ret_inv {A} (m : M Env A) w w' a :
  lift m w = (w', Ret a) -> m (env w) = (env w', Ret a).
Proof.
  unfold lift. destruct (m (env w)) as [e' o]. intros E.
  injection E as <- ->. reflexivity.
Qed.

Lemma security_keeps_id W sec :
  keeps_id (Stage (H := SecurityMiddleware_stage W) sec).
Proof.
  intros response request e e' response' E.
  cbn [stage_response process_response SecurityMiddleware_stage] in E.
  injection E as _ <-. reflexivity.
Qed.

Lemma observability_keeps_id W obs :
  keeps_id (Stage (H := ObservabilityMiddleware_stage W) obs).
Proof.
  intros response request e e' response' E.
  cbn [stage_response process_response ObservabilityMiddleware_stage] in E.
  unfold ObservabilityMiddleware.process_response in E.
  apply bind_ret_inv in E as (e1 & r & _ & E).
  apply bind_ret_inv in E as (e2 & dflt & _ & E). cbv beta zeta in E.
  apply bind_ret_inv in E as (e3 & now & _ & E).
  apply bind_ret_inv in E as (e4 & duration & _ & E).
  injection E as _ <-. reflexivity.
Qed.

Lemma governance_keeps_id W gov :
  keeps_id (Stage (H := GovernanceMiddleware_stage W) gov).
Proof.
  intros response request e e' response' E.
  cbn [stage_response process_response GovernanceMiddleware_stage] in E.
  unfold GovernanceMiddleware.process_response in E.
  apply bind_ret_inv in E as (e1 & [] & _ & E).
  injection E as _ <-. reflexivity.
Qed.

Lemma cost_keeps_id W cost :
  keeps_id (Stage (H := CostManagementMiddleware_stage W) cost).
Proof.
  intros response request e e' response' E.
  cbn [stage_response process_response CostManagementMiddleware_stage] in E.
  unfold CostManagementMiddleware.process_response in E.
  apply bind_ret_inv in E as (e1 & r & _ & E).
  injection E as _ <-. reflexivity.
Qed.

Lemma run_response_keeps_id stages :
  Forall (fun s => keeps_id (snd s)) stages ->
  forall response request w w' r,
    MiddlewareChain.run_response stages response request w = (w', Ret r) ->
    Response.id r = Response.id response.
Proof.
  induction 1 as [ | [i mw] rest Hmw _ IH]; intros response request w w' r E.
  - injection E as _ <-. reflexivity.
  - cbn [MiddlewareChain.run_response] in E.
    apply bind_ret_inv in E as (w1 & [] & _ & E).
    apply bind_ret_inv in E as (w2 & response1 & Hstage & E).
    apply lift_ret_inv in Hstage.
    rewrite (IH _ _ _ _ _ E). exact (Hmw _ _ _ _ _ Hstage).
Qed.

Lemma process_response_keeps_id chain :
  Forall keeps_id (MiddlewareChain.middleware chain) ->
  forall response request w w' r,
    MiddlewareChain.process_response chain response request w = (w', Ret r) ->
    Response.id r = Response.id response.
Proof.
  intros Hall. apply run_response_keeps_id.
  apply Forall_reverse. unfold MiddlewareChain.indexed.
  generalize 0%nat.
  induction Hall as [ | mw rest Hmw _ IH]; intros a; [constructor | ].
  cbn [length seq zip_with]. constructor; [exact Hmw | apply IH].
Qed.

(** What [handle_request] returns is an error envelope of its own making
    or the encoding of the processed response of the target. *)
Lemma handle_request_returns W self raw w w' out :
  EnterpriseProxy.handle_request W self raw w = (w', Ret out) ->
  (exists message, out = error_envelope message)
  \/ (exists request data reply w1 w2 w3 response processed,
        backend W (MCPRouter.target_host (EnterpriseProxy.router self))
          (MCPRouter.target_port (EnterpriseProxy.router self)) data
        = IOReply reply
        /\ Response.from_bytes W (take 4096 reply) (sources (env w1))
           = (sources (env w2), Ret response)
        /\ MiddlewareChain.process_response (EnterpriseProxy.middleware self)
             response request w2 = (w3, Ret processed)
        /\ out = map byte_of (dumps (Response.to_bytes_obj processed))).
Proof.
  unfold EnterpriseProxy.handle_request, try_except.
  match goal with
  | |- (match ?body w with _ => _ end) = _ -> _ =>
      destruct (body w) as [wb [o | e | ]] eqn:Hbody
  end.
  - intros E. injection E as <- <-. right.
    apply bind_ret_inv in Hbody as (wr & request & _ & Hbody).
    apply bind_ret_inv in Hbody as (wc & processed_request & _ & Hbody).
    apply bind_ret_inv in Hbody as (wl & outgoing & _ & Hbody).
    apply bind_ret_inv in Hbody as (wd & data & _ & Hbody).
    apply bind_ret_inv in Hbody as (wf & raw_response & Hforward & Hbody).
    apply bind_ret_inv in Hbody as (wp & response & Hdecode & Hbody).
    apply bind_ret_inv in Hbody as (wq & processed & Hchain & Hbody).
    rewrite response_to_bytes in Hbody. injection Hbody as _ <-.
    rewrite forward_outcome in Hforward.
    destruct (backend W _ _ data) as [reply | e | ] eqn:Hio;
      [ | discriminate | discriminate].
    injection Hforward as <- <-.
    apply lift_ret_inv in Hdecode.
    unfold draw in Hdecode.
    destruct (Response.from_bytes W (take 4096 reply) _)
      as [s' o'] eqn:Hfrom.
    injection Hdecode as Henv ->.
    exists request, data, reply, wd, wp, wq, response, processed.
    split; [exact Hio | ]. split; [ | split; [exact Hchain | reflexivity]].
    cbn [env sources] in Hfrom. rewrite Hfrom, <- Henv. reflexivity.
  - rewrite error_path. intros E. injection E as _ <-. left. eauto.
  - discriminate.
Qed.

Lemma four_stages_keep_id W sec obs gov cost :
  Forall keeps_id (MiddlewareChain.middleware (four_stages W sec obs gov cost)).
Proof.
  repeat constructor;
    [apply security_keeps_id | apply observability_keeps_id
     | apply governance_keeps_id | apply cost_keeps_id].
Qed.

(** C2, as stated, fails on an error response and on a relayed one: the
    request has id 1; when the exchange with the target raises, the
    response has id null; when the target replies with id 99, the response
    has id 99. *)
Lemma response_id_is_not_the_request_id :
  (let W := sample_environ (IOError refused) in
   exists s parsed w',
     Request.from_bytes W list_tools (sources (env start)) = (s, Ret parsed)
     /\ Request.id parsed = PInt 1
     /\ EnterpriseProxy.handle_request W (source_proxy W) list_tools start
        = (w', Ret (json_text
             "{'jsonrpc': '2.0', 'id': null, 'error': {'code': -32603, 'message': 'refused'}}")))
  /\ (let W := sample_environ (IOReply reply_99) in
      exists w',
        EnterpriseProxy.handle_request W (source_proxy W) list_tools start
        = (w', Ret (json_text "{'jsonrpc': '2.0', 'id': 99, 'result': {}}"))).
Proof.
  split.
  - intros W. eexists _, _, _. split; [vm_compute; reflexivity | ].
    split; [reflexivity | vm_compute; reflexivity].
  - intros W. eexists. vm_compute. reflexivity.
Qed.

(** C2, amended: the proxy never copies the id of the request.  With the
    four stages of the proxy, what [handle_request] returns is either the
    error envelope it builds when a step raises, whose id is null, or the
    encoding of a response that has the id of the reply of the target,
    which the stages hand on unchanged. *)
Theorem response_id_origin W (self : EnterpriseProxy.t) (raw : bytes)
  (w w' : World) (out : bytes)
  (sec : SecurityMiddleware.t) (obs : ObservabilityMiddleware.t)
  (gov : GovernanceMiddleware.t) (cost : CostManagementMiddleware.t) :
  EnterpriseProxy.middleware self = four_stages W sec obs gov cost ->
  EnterpriseProxy.handle_request W self raw w = (w', Ret out) ->
  (exists message, out = error_envelope message)
  \/ (exists data reply s s' response processed,
        backend W (MCPRouter.target_host (EnterpriseProxy.router self))
          (MCPRouter.target_port (EnterpriseProxy.router self)) data
        = IOReply reply
        /\ Response.from_bytes W (take 4096 reply) s = (s', Ret response)
        /\ Response.id processed = Response.id response
        /\ out = map byte_of (dumps (Response.to_bytes_obj processed))).
Proof.
  intros Hchain Hrun.
  destruct (handle_request_returns W self raw w w' out Hrun)
    as [Herr | (request & data & reply & w1 & w2 & w3 & response & processed
                & Hio & Hfrom & Hresp & Hout)];
    [left; exact Herr | right].
  exists data, reply, (sources (env w1)), (sources (env w2)),
    response, processed.
  split; [exact Hio | ]. split; [exact Hfrom | ]. split; [ | exact Hout].
  apply (process_response_keeps_id (EnterpriseProxy.middleware self))
    with (request := request) (w := w2) (w' := w3); [ | exact Hresp].
  rewrite Hchain. apply four_stages_keep_id.
Qed.

Lemma response_id_origin_witness :
  let W := sample_environ (IOReply reply_99) in
  let out := json_text "{'jsonrpc': '2.0', 'id': 99, 'result': {}}" in
  (exists message, out = error_envelope message)
  \/ (exists data reply s s' response processed,
        backend W (lit "localhost") 3000%Z data = IOReply reply
        /\ Response.from_bytes W (take 4096 reply) s = (s', Ret response)
        /\ Response.id processed = Response.id response
        /\ out = map byte_of (dumps (Response.to_bytes_obj processed))).
Proof.
  intros W out.
  pose (config := sample_config [lit "issues.close"]).
  apply (response_id_origin W (source_proxy W) list_tools start
           (fst (EnterpriseProxy.handle_request W (source_proxy W)
                   list_tools start))
           out
           (SecurityMiddleware.source (security config))
           (ObservabilityMiddleware.mk (observability config))
           (GovernanceMiddleware.source (governance config))
           (CostManagementMiddleware.source (cost_management config)));
    [reflexivity | vm_compute; reflexivity].
Defined.

(** * Further properties of the data model *)

Lemma response_from_bytes_object W data obj s :
  parse_object W data = inr obj ->
  Response.from_bytes W data s
  = (tick s,
     Ret (Response.mk (get obj (lit "result") PNone)
            (get obj (lit "error") PNone)
            (get obj (lit "id") PNone)
            (get obj (lit "jsonrpc") (PStr (lit "2.0")))
            ∅ (clock W (clock_reads s)))).
Proof. intros E. unfold Response.from_bytes. rewrite E. reflexivity. Qed.


(** [Response.from_bytes(resp.to_bytes())]: for a response whose envelope
    holds JSON values that [json] writes and reads back unchanged, decoding
    the encoding returns [jsonrpc] and [id] unchanged; of [result] and
    [error] it keeps the one that was written, the error when truthy and
    the result otherwise, and the other is [None]; metadata is empty and
    the timestamp is the time of decoding. *)
Theorem response_from_bytes_to_bytes W (resp : Response.t) (s : Sources) :
  valid (Response.to_bytes_obj resp) = true ->
  exists data,
    Response.to_bytes resp s = (s, Ret data)
    /\ Response.from_bytes W data s
       = (tick s,
          Ret (Response.mk
                 (if truthy (Response.error resp)
                  then PNone else Response.result resp)
                 (if truthy (Response.error resp)
                  then Response.error resp else PNone)
                 (Response.id resp) (Response.jsonrpc resp)
                 ∅ (clock W (clock_reads s)))).
Proof.
  intros Hvalid. eexists. split; [apply response_to_bytes | ].
  unfold Response.to_bytes_obj in *.
  destruct (truthy (Response.error resp));
    rewrite (response_from_bytes_object _ _ _ _ (parse_object_dumps W _ Hvalid));
    reflexivity.
Qed.

Lemma response_from_bytes_to_bytes_witness :
  exists data,
    Response.to_bytes both_set (sources (env start))
    = (sources (env start), Ret data)
    /\ Response.from_bytes (sample_environ IOBlocked) data
         (sources (env start))
       = ({| clock_reads := 1; uuid_draws := 0 |},
          Ret (Response.mk PNone
                 (PDict [(lit "code", PInt 1); (lit "message", PStr (lit "x"))])
                 (PStr (lit "1")) (PStr (lit "2.0")) ∅ 0%Q)).
Proof.
  apply (response_from_bytes_to_bytes (sample_environ IOBlocked) both_set
           (sources (env start))).
  vm_compute. reflexivity.
Defined.



(** [Response.error(message, code).to_bytes()] is, for every message and
    code, the error envelope with that code and message and with id null:
    the error mapping has two members, hence is truthy, even for the empty
    message and the code 0. *)
Theorem error_to_bytes W (message : str) (code : Z) (s : Sources) :
  (r ← Response.make_error W message code; Response.to_bytes r) s
  = (tick s,
     Ret (map byte_of
            (dumps (PDict
               [(lit "jsonrpc", PStr (lit "2.0")); (lit "id", PNone);
                (lit "error",
                 PDict [(lit "code", PInt code);
                        (lit "message", PStr message)])])))).
Proof.
  erewrite bind_ret by reflexivity. rewrite response_to_bytes. reflexivity.
Qed.

Lemma ascii_bytes s :
  ascii_text s -> Forall (fun b => Byte.to_N b < 128) (map byte_of s).
Proof.
  induction 1 as [ | c l Hc _ IH]; [constructor | ].
  cbn [map]. constructor; [ | exact IH].
  rewrite byte_of_to_N by lia. exact Hc.
Qed.

(** [to_bytes] of a request and of a response always returns, and every
    byte it returns is ASCII: [json.dumps] escapes the rest. *)
Theorem to_bytes_is_ascii {S} (req : Request.t) (resp : Response.t) (s : S) :
  (exists data,
     Request.to_bytes req s = (s, Ret data)
     /\ Forall (fun b => Byte.to_N b < 128) data)
  /\ (exists data,
        Response.to_bytes resp s = (s, Ret data)
        /\ Forall (fun b => Byte.to_N b < 128) data).
Proof.
  split; eexists;
    (split; [first [apply request_to_bytes | apply response_to_bytes] | ]);
    apply ascii_bytes, dumps_ascii.
Qed.



(** * Further properties of the chain and of the proxy *)

(** [chain.add(mw)]: the stage added last is the last to process the
    request, after the stages already there, and the first to process the
    response, before them. *)
Theorem add_appends_a_stage (chain : MiddlewareChain.t) (mw : stage)
  (request : loc) (response : Response.t) (w : World) :
  MiddlewareChain.process_request (MiddlewareChain.add chain mw) request w
  = (r ← MiddlewareChain.process_request chain request;
     emit (EvRequest (length (MiddlewareChain.middleware chain)));;
     lift (stage_request mw r)) w
  /\ MiddlewareChain.process_response (MiddlewareChain.add chain mw)
       response request w
     = (emit (EvResponse (length (MiddlewareChain.middleware chain)));;
        r ← lift (stage_response mw response request);
        MiddlewareChain.process_response chain r request) w.
Proof.
  unfold MiddlewareChain.process_request, MiddlewareChain.process_response,
    MiddlewareChain.indexed, MiddlewareChain.add.
  cbn [MiddlewareChain.middleware]. rewrite zip_seq_app. split.
  - rewrite run_request_app. unfold mbind, M_bind, bind.
    destruct (MiddlewareChain.run_request _ request w) as [w1 [r | e | ]];
      [ | reflexivity | reflexivity].
    cbn [length seq zip_with MiddlewareChain.run_request].
    unfold mbind, M_bind, bind, emit. cbn beta iota.
    destruct (lift (stage_request mw r) _) as [w2 [r2 | e | ]]; reflexivity.
  - rewrite reverse_app. reflexivity.
Qed.






(** * Further properties of the stages *)

(** [SecurityMiddleware.process_request] for an authenticated caller: the
    user is recorded in the metadata of the request before the RBAC check,
    so a request that the check rejects has its [user] set, and the
    [PermissionError] names the user and the method; with RBAC disabled the
    request passes without [_authorize] being consulted. *)
Theorem authorization_follows_the_user W (sec : SecurityMiddleware.t)
  (h : list Request.t) (r : Request.t) (s : Sources) :
  falsy (SecurityMiddleware._authenticate sec r) = false ->
  let user := default [] (SecurityMiddleware._authenticate sec r) in
  let known := annotated r (lit "user") (MVal (PStr user)) in
  (rbac_enabled (SecurityMiddleware.config sec) = true ->
   SecurityMiddleware._authorize sec user (Request.method r) = false ->
   SecurityMiddleware.process_request W sec (length h)
     {| heap := h ++ [r]; sources := s |}
   = ({| heap := h ++ [known]; sources := s |},
      Raise (Exn "PermissionError"
               (lit "User " ++ user ++ lit " not authorized for "
                  ++ py_str W (MVal (Request.method r))))))
  /\ (rbac_enabled (SecurityMiddleware.config sec) = false ->
      SecurityMiddleware.process_request W sec (length h)
        {| heap := h ++ [r]; sources := s |}
      = ({| heap := h ++ [known]; sources := s |}, Ret (length h))).
Proof.
  intros Hauth user known. split.
  - intros Hrbac Hdenied. unfold SecurityMiddleware.process_request.
    erewrite bind_ret by apply load_last. rewrite Hauth.
    erewrite bind_ret by apply set_metadata_last.
    fold user. rewrite Hrbac, Hdenied. reflexivity.
  - intros Hrbac. apply security_pass; [exact Hauth | ].
    rewrite Hrbac. reflexivity.
Qed.

Lemma authorization_follows_the_user_witness :
  let W := sample_environ IOBlocked in
  SecurityMiddleware.process_request W
    (no_rights {| rbac_enabled := true |}) 0%nat (one_request 1)
  = ({| heap := [annotated plain_request (lit "user")
                   (MVal (PStr (lit "alice")))];
        sources := {| clock_reads := 1; uuid_draws := 1 |} |},
     Raise (Exn "PermissionError"
              (lit "User alice not authorized for tools/list"))).
Proof.
  intros W.
  apply (proj1 (authorization_follows_the_user W
                  (no_rights {| rbac_enabled := true |}) [] plain_request
                  {| clock_reads := 1; uuid_draws := 1 |} eq_refl));
    reflexivity.
Defined.

Lemma observability_response W obs h r s response t0 :
  Request.metadata r !! lit "start_time" = Some (MFloat t0) ->
  ObservabilityMiddleware.process_response W obs response (length h)
    {| heap := h ++ [r]; sources := s |}
  = ({| heap := h ++ [r]; sources := tick (tick s) |},
     Ret (with_metadata response (lit "duration_seconds")
            (MFloat (clock W (S (clock_reads s)) - t0)%Q))).
Proof.
  intros Hstart. unfold ObservabilityMiddleware.process_response.
  erewrite bind_ret by apply load_last.
  erewrite bind_ret by reflexivity. cbv zeta. rewrite Hstart.
  erewrite bind_ret by reflexivity.
  erewrite bind_ret by reflexivity. reflexivity.
Qed.

(** The observability stage measures from its [process_request] to its
    [process_response]: the duration recorded on the response is the
    second of the two clock readings that [process_response] makes, minus
    the reading that [process_request] stored as [start_time]; the wire
    fields of the response are unchanged. *)
Theorem duration_is_measured W (obs : ObservabilityMiddleware.t)
  (h : list Request.t) (r : Request.t) (s s2 : Sources)
  (response : Response.t) :
  let started :=
    annotated r (lit "start_time") (MFloat (clock W (clock_reads s))) in
  ObservabilityMiddleware.process_request W obs (length h)
    {| heap := h ++ [r]; sources := s |}
  = ({| heap := h ++ [started]; sources := tick s |}, Ret (length h))
  /\ ObservabilityMiddleware.process_response W obs response (length h)
       {| heap := h ++ [started]; sources := s2 |}
     = ({| heap := h ++ [started]; sources := tick (tick s2) |},
        Ret (Response.mk (Response.result response) (Response.error response)
               (Response.id response) (Response.jsonrpc response)
               (<[lit "duration_seconds" :=
                    MFloat (clock W (S (clock_reads s2))
                            - clock W (clock_reads s))%Q]>
                  (Response.metadata response))
               (Response.timestamp response))).
Proof.
  intros started. split; [apply observability_request | ].
  apply observability_response. apply lookup_insert_eq.
Qed.

(** [ObservabilityMiddleware.process_response] for a request that did not
    pass through its [process_request]: the default is itself a clock
    reading, made first, so the duration is the difference of two
    successive readings. *)
Theorem duration_without_start_time W (obs : ObservabilityMiddleware.t)
  (h : list Request.t) (r : Request.t) (s : Sources)
  (response : Response.t) :
  Request.metadata r !! lit "start_time" = None ->
  ObservabilityMiddleware.process_response W obs response (length h)
    {| heap := h ++ [r]; sources := s |}
  = ({| heap := h ++ [r]; sources := tick (tick s) |},
     Ret (with_metadata response (lit "duration_seconds")
            (MFloat (clock W (S (clock_reads s))
                     - clock W (clock_reads s))%Q))).
Proof.
  intros Hstart. unfold ObservabilityMiddleware.process_response.
  erewrite bind_ret by apply load_last.
  erewrite bind_ret by reflexivity. cbv zeta. rewrite Hstart.
  erewrite bind_ret by reflexivity.
  erewrite bind_ret by reflexivity. reflexivity.
Qed.

Lemma duration_without_start_time_witness :
  let W := sample_environ IOBlocked in
  ObservabilityMiddleware.process_response W
    (ObservabilityMiddleware.mk {| dashboard_enabled := false |})
    plain_response 0%nat (one_request 5)
  = ({| heap := [plain_request];
        sources := {| clock_reads := 7; uuid_draws := 1 |} |},
     Ret (with_metadata plain_response (lit "duration_seconds")
            (MFloat (inject_Z 6 - inject_Z 5)%Q))).
Proof.
  intros W.
  apply (duration_without_start_time W
           (ObservabilityMiddleware.mk {| dashboard_enabled := false |})
           [] plain_request {| clock_reads := 5; uuid_draws := 1 |}
           plain_response).
  apply lookup_empty.
Defined.

(** [GovernanceMiddleware._requires_approval]: a request with a string
    method requires approval exactly when some approval rule lists that
    very string among its operations; rules are not patterns. *)
Theorem requires_approval_iff (gov : GovernanceMiddleware.t)
  (r : Request.t) (m : str) :
  Request.method r = PStr m ->
  (GovernanceMiddleware._requires_approval gov r = true
   <-> exists rule,
         In rule (approvals (GovernanceMiddleware.config gov))
         /\ In m (operations rule)).
Proof.
  intros Hm. unfold GovernanceMiddleware._requires_approval.
  rewrite Hm, existsb_exists. split.
  - intros (rule & Hin & Hops). exists rule. split; [exact Hin | ].
    apply existsb_exists in Hops as (op & Hop & Heq).
    cbn [py_eq] in Heq. unfold str_eqb in Heq.
    apply bool_decide_eq_true in Heq. subst op. exact Hop.
  - intros (rule & Hin & Hop). exists rule. split; [exact Hin | ].
    apply existsb_exists. exists m. split; [exact Hop | ].
    cbn [py_eq]. unfold str_eqb. apply bool_decide_eq_true. reflexivity.
Qed.

Lemma requires_approval_iff_witness :
  GovernanceMiddleware._requires_approval
    (GovernanceMiddleware.source (governance (sample_config [lit "tools/list"])))
    plain_request = true
  <-> exists rule,
        In rule (approvals (governance (sample_config [lit "tools/list"])))
        /\ In (lit "tools/list") (operations rule).
Proof.
  apply (requires_approval_iff
           (GovernanceMiddleware.source
              (governance (sample_config [lit "tools/list"])))
           plain_request (lit "tools/list")).
  reflexivity.
Defined.

(** [EnterpriseProxy.__init__] builds a proxy exactly when [target_server]
    is not empty and, TLS being enabled, both the certificate path and the
    key path are given; the proxy then routes to the configured host and
    port and has the four stages in the order security, observability,
    governance, cost management.  With the defaults of [SecurityConfig],
    TLS enabled and no paths, it raises. *)
Theorem new_proxy_succeeds_iff W (target_server : str) (tls : TlsConfig)
  (config : FrameworkConfig) :
  ((exists proxy, new_proxy W target_server tls config = inr proxy)
   <-> target_server <> []
       /\ (tls_enabled tls = true ->
           falsy (tls_cert_path tls) = false
           /\ falsy (tls_key_path tls) = false))
  /\ (forall proxy,
        new_proxy W target_server tls config = inr proxy ->
        EnterpriseProxy.router proxy
        = MCPRouter.mk (target_host config) (target_port config)
        /\ EnterpriseProxy.middleware proxy
           = four_stages W
               (SecurityMiddleware.source (security config))
               (ObservabilityMiddleware.mk (observability config))
               (GovernanceMiddleware.source (governance config))
               (CostManagementMiddleware.source (cost_management config)))
  /\ new_proxy W target_server default_tls config
     = inl (Exn "ValueError"
              (if falsy (Some target_server)
               then lit "target_server is required"
               else lit "TLS enabled but cert/key paths not provided")).
Proof.
  unfold new_proxy, validate. split; [ | split].
  - destruct target_server as [ | c rest]; cbn [falsy].
    + split; [intros [proxy H]; discriminate | intros [H _]; congruence].
    + destruct (tls_enabled tls); cbn [andb].
      * destruct (falsy (tls_cert_path tls)), (falsy (tls_key_path tls));
          cbn [orb]; split;
          try (intros [proxy H]; discriminate);
          try (intros [_ H]; destruct (H eq_refl); discriminate).
        intros _. split; [discriminate | ]. intros _. split; reflexivity.
        intros _. eexists. reflexivity.
      * split; [ | intros _; eexists; reflexivity].
        intros _. split; [discriminate | ]. intros H. discriminate.
  - intros proxy.
    destruct (falsy (Some target_server)); [discriminate | ].
    destruct (tls_enabled tls
              && (falsy (tls_cert_path tls) || falsy (tls_key_path tls)));
      [discriminate | ].
    intros H. injection H as <-. split; reflexivity.
  - destruct (falsy (Some target_server)); reflexivity.
Qed.

Lemma new_proxy_succeeds_iff_witness :
  let W := sample_environ IOBlocked in
  let tls := {| tls_enabled := true;
                tls_cert_path := Some (lit "cert.pem");
                tls_key_path := Some (lit "key.pem") |} in
  exists proxy,
    new_proxy W (lit "github-mcp") tls (sample_config []) = inr proxy.
Proof.
  intros W tls.
  apply (proj2 (proj1 (new_proxy_succeeds_iff W (lit "github-mcp") tls
                         (sample_config [])))).
  split; [discriminate | ]. intros _. split; reflexivity.
Defined.

Lemma governance_pass W gov h r s :
  (GovernanceMiddleware._requires_approval gov r = true ->
   falsy (GovernanceMiddleware._get_approval gov r) = false) ->
  GovernanceMiddleware.process_request W gov (length h)
    {| heap := h ++ [r]; sources := s |}
  = ({| heap :=
          h ++ [if GovernanceMiddleware._requires_approval gov r
                then annotated r (lit "approval")
                       (MVal (PStr (default []
                                      (GovernanceMiddleware._get_approval gov r))))
                else r];
        sources :=
          if audit_enabled (audit (GovernanceMiddleware.config gov))
          then tick s else s |},
     Ret (length h)).
Proof.
  intros Hgranted. unfold GovernanceMiddleware.process_request.
  erewrite bind_ret by apply load_last.
  destruct (GovernanceMiddleware._requires_approval gov r).
  - rewrite (Hgranted eq_refl).
    erewrite bind_ret by apply set_metadata_last.
    destruct (audit_enabled _); reflexivity.
  - erewrite bind_ret by reflexivity.
    destruct (audit_enabled _); reflexivity.
Qed.

Lemma cost_pass W cost h r s :
  rate_limits_enabled (rate_limits (CostManagementMiddleware.config cost))
  && negb (CostManagementMiddleware._check_rate_limit cost
             (CostManagementMiddleware.user_of r)) = false ->
  budget_enabled (budget (CostManagementMiddleware.config cost))
  && negb (CostManagementMiddleware._check_budget cost
             (CostManagementMiddleware.user_of r)) = false ->
  CostManagementMiddleware.process_request W cost (length h)
    {| heap := h ++ [r]; sources := s |}
  = ({| heap := h ++ [r]; sources := s |}, Ret (length h)).
Proof.
  intros Hrate Hbudget. unfold CostManagementMiddleware.process_request.
  erewrite bind_ret by apply load_last. cbv zeta.
  rewrite Hrate, Hbudget. reflexivity.
Qed.

Lemma cost_reject W cost h r s :
  rate_limits_enabled (rate_limits (CostManagementMiddleware.config cost))
  = true ->
  CostManagementMiddleware._check_rate_limit cost
    (CostManagementMiddleware.user_of r) = false ->
  CostManagementMiddleware.process_request W cost (length h)
    {| heap := h ++ [r]; sources := s |}
  = ({| heap := h ++ [r]; sources := s |},
     Raise (Exn "PermissionError"
              (lit "Rate limit exceeded for user: "
                 ++ py_str W (CostManagementMiddleware.user_of r)))).
Proof.
  intros Hrate Hcheck. unfold CostManagementMiddleware.process_request.
  erewrite bind_ret by apply load_last. cbv zeta.
  rewrite Hrate, Hcheck. reflexivity.
Qed.



Lemma user_of_seen r user t0 approval (approved : bool) :
  CostManagementMiddleware.user_of
    (if approved
     then annotated
            (annotated (annotated r (lit "user") (MVal (PStr user)))
               (lit "start_time") (MFloat t0))
            (lit "approval") approval
     else annotated (annotated r (lit "user") (MVal (PStr user)))
            (lit "start_time") (MFloat t0))
  = MVal (PStr user).
Proof.
  unfold CostManagementMiddleware.user_of.
  destruct approved; cbn [annotated Request.metadata].
  - rewrite lookup_insert_ne by (vm_compute; discriminate).
    rewrite lookup_insert_ne by (vm_compute; discriminate).
    rewrite lookup_insert_eq. reflexivity.
  - rewrite lookup_insert_ne by (vm_compute; discriminate).
    rewrite lookup_insert_eq. reflexivity.
Qed.


Lemma wire_of_seen r user t0 approval (approved : bool) :
  Request.to_bytes_obj
    (if approved
     then annotated
            (annotated (annotated r (lit "user") (MVal (PStr user)))
               (lit "start_time") (MFloat t0))
            (lit "approval") approval
     else annotated (annotated r (lit "user") (MVal (PStr user)))
            (lit "start_time") (MFloat t0))
  = Request.to_bytes_obj r.
Proof. destruct approved; reflexivity. Qed.

(** * The proxy as shipped *)

Lemma shipped_chain_request W config h r s t :
  MiddlewareChain.process_request (EnterpriseProxy._init_middleware W config)
    (length h) {| env := {| heap := h ++ [r]; sources := s |}; trace := t |}
  = ({| env :=
          {| heap :=
               h ++ [if GovernanceMiddleware._requires_approval
                          (GovernanceMiddleware.source (governance config)) r
                     then annotated
                            (annotated
                               (annotated r (lit "user")
                                  (MVal (PStr (lit "demo_user"))))
                               (lit "start_time")
                               (MFloat (clock W (clock_reads s))))
                            (lit "approval")
                            (MVal (PStr (lit "auto_approved")))
                     else annotated
                            (annotated r (lit "user")
                               (MVal (PStr (lit "demo_user"))))
                            (lit "start_time")
                            (MFloat (clock W (clock_reads s)))];
             sources :=
               if audit_enabled (audit (governance config))
               then tick (tick s) else tick s |};
        trace := t ++ [EvRequest 0; EvRequest 1; EvRequest 2; EvRequest 3] |},
     Ret (length h)).
Proof.
  unfold MiddlewareChain.process_request, MiddlewareChain.indexed,
    EnterpriseProxy._init_middleware, MiddlewareChain.add,
    MiddlewareChain.init.
  cbn [MiddlewareChain.middleware app length seq zip_with
       MiddlewareChain.run_request].
  erewrite bind_ret by reflexivity.
  erewrite bind_ret
    by (apply lift_outcome;
        cbn [env stage_request process_request SecurityMiddleware_stage];
        apply security_pass; [reflexivity | apply andb_false_r]).
  erewrite bind_ret by reflexivity.
  erewrite bind_ret
    by (apply lift_outcome;
        cbn [env stage_request process_request
             ObservabilityMiddleware_stage];
        apply observability_request).
  erewrite bind_ret by reflexivity.
  erewrite bind_ret
    by (apply lift_outcome;
        cbn [env stage_request process_request GovernanceMiddleware_stage];
        apply governance_pass; reflexivity).
  erewrite bind_ret by reflexivity.
  erewrite bind_ret
    by (apply lift_outcome;
        cbn [env stage_request process_request
             CostManagementMiddleware_stage];
        apply cost_pass; apply andb_false_r).
  cbn [MiddlewareChain.run_request trace env].
  unfold mret, M_ret, ret. rewrite <- !app_assoc. reflexivity.
Qed.

(** With the placeholder bodies of the source, the chain blocks no
    request: [process_request] calls the four stages in order and returns;
    the request is annotated with the user "demo_user", with the clock
    reading as [start_time] and, when an approval rule lists its method,
    with the approval "auto_approved"; its wire fields are unchanged. *)
Theorem shipped_chain_blocks_nothing W (config : FrameworkConfig)
  (h : list Request.t) (r : Request.t) (s : Sources) (t : list event) :
  let gov := GovernanceMiddleware.source (governance config) in
  let timed :=
    annotated (annotated r (lit "user") (MVal (PStr (lit "demo_user"))))
      (lit "start_time") (MFloat (clock W (clock_reads s))) in
  let seen :=
    if GovernanceMiddleware._requires_approval gov r
    then annotated timed (lit "approval") (MVal (PStr (lit "auto_approved")))
    else timed in
  MiddlewareChain.process_request (EnterpriseProxy._init_middleware W config)
    (length h) {| env := {| heap := h ++ [r]; sources := s |}; trace := t |}
  = ({| env :=
          {| heap := h ++ [seen];
             sources :=
               if audit_enabled (audit (governance config))
               then tick (tick s) else tick s |};
        trace := t ++ [EvRequest 0; EvRequest 1; EvRequest 2; EvRequest 3] |},
     Ret (length h))
  /\ Request.to_bytes_obj seen = Request.to_bytes_obj r.
Proof.
  intros gov timed seen. split.
  - apply shipped_chain_request.
  - apply wire_of_seen.
Qed.




(** The cost stage decides for the user that the security stage
    authenticated: with the four stages of the proxy, when the request
    passes the security and governance stages and the rate limit of the
    authenticated user is exceeded, [handle_request] returns the error
    envelope whose message names that user; the four stages have been
    called and the router has not. *)
Theorem rate_limit_names_the_user W (self : EnterpriseProxy.t) (raw : bytes)
  (w : World) (s1 : Sources) (parsed : Request.t)
  (sec : SecurityMiddleware.t) (obs : ObservabilityMiddleware.t)
  (gov : GovernanceMiddleware.t) (cost : CostManagementMiddleware.t) :
  let user := default [] (SecurityMiddleware._authenticate sec parsed) in
  Request.from_bytes W raw (sources (env w)) = (s1, Ret parsed) ->
  EnterpriseProxy.middleware self = four_stages W sec obs gov cost ->
  falsy (SecurityMiddleware._authenticate sec parsed) = false ->
  rbac_enabled (SecurityMiddleware.config sec)
  && negb (SecurityMiddleware._authorize sec user (Request.method parsed))
  = false ->
  (forall r, Request.method r = Request.method parsed ->
             GovernanceMiddleware._requires_approval gov r = true ->
             falsy (GovernanceMiddleware._get_approval gov r) = false) ->
  rate_limits_enabled (rate_limits (CostManagementMiddleware.config cost))
  = true ->
  CostManagementMiddleware._check_rate_limit cost (MVal (PStr user)) = false ->
  exists w',
    EnterpriseProxy.handle_request W self raw w
    = (w', Ret (error_envelope (lit "Rate limit exceeded for user: " ++ user)))
    /\ trace w'
       = trace w ++ [EvRequest 0; EvRequest 1; EvRequest 2; EvRequest 3].
Proof.
  intros user Hparse Hchain Hauth Hrbac Hgranted Hrate Hcheck.
  set (timed := annotated (annotated parsed (lit "user") (MVal (PStr user)))
                  (lit "start_time") (MFloat (clock W (clock_reads s1)))).
  set (approved := GovernanceMiddleware._requires_approval gov timed).
  set (approval := MVal (PStr (default []
                                 (GovernanceMiddleware._get_approval gov timed)))).
  set (seen := if approved
               then annotated timed (lit "approval") approval else timed).
  set (e3 := {| heap := heap (env w) ++ [seen];
                sources :=
                  if audit_enabled (audit (GovernanceMiddleware.config gov))
                  then tick (tick s1) else tick s1 |}).
  set (w3 := {| env := e3;
                trace := ((trace w ++ [EvRequest 0]) ++ [EvRequest 1])
                         ++ [EvRequest 2] |}).
  assert (Hpre :
            MiddlewareChain.process_request
              (MiddlewareChain.mk
                 [Stage (H := SecurityMiddleware_stage W) sec;
                  Stage (H := ObservabilityMiddleware_stage W) obs;
                  Stage (H := GovernanceMiddleware_stage W) gov])
              (length (heap (env w))) (received w s1 parsed)
            = (w3, Ret (length (heap (env w))))).
  { unfold MiddlewareChain.process_request, MiddlewareChain.indexed.
    cbn [MiddlewareChain.middleware length seq zip_with
         MiddlewareChain.run_request].
    erewrite bind_ret by reflexivity.
    erewrite bind_ret
      by (apply lift_outcome; cbn [received env stage_request
                                   process_request SecurityMiddleware_stage];
          apply security_pass; assumption).
    erewrite bind_ret by reflexivity.
    erewrite bind_ret
      by (apply lift_outcome; cbn [env stage_request process_request
                                   ObservabilityMiddleware_stage];
          apply observability_request).
    erewrite bind_ret by reflexivity.
    erewrite bind_ret
      by (apply lift_outcome; cbn [env stage_request process_request
                                   GovernanceMiddleware_stage];
          apply governance_pass; apply Hgranted; reflexivity).
    reflexivity. }
  assert (Huser : CostManagementMiddleware.user_of seen = MVal (PStr user))
    by apply user_of_seen.
  assert (Hstage :
            stage_request (Stage (H := CostManagementMiddleware_stage W) cost)
              (length (heap (env w))) (env w3)
            = (e3,
               Raise (Exn "PermissionError"
                        (lit "Rate limit exceeded for user: " ++ user)))).
  { unfold w3, e3.
    cbn [env stage_request process_request CostManagementMiddleware_stage].
    rewrite (cost_reject W cost (heap (env w)) seen _ Hrate)
      by (rewrite Huser; exact Hcheck).
    rewrite Huser. reflexivity. }
  assert (Hchain' :
            MiddlewareChain.middleware (EnterpriseProxy.middleware self)
            = [Stage (H := SecurityMiddleware_stage W) sec;
               Stage (H := ObservabilityMiddleware_stage W) obs;
               Stage (H := GovernanceMiddleware_stage W) gov]
              ++ Stage (H := CostManagementMiddleware_stage W) cost :: [])
    by (rewrite Hchain; reflexivity).
  pose proof (abort_answer W self raw w s1 parsed _ _ _ w3 _ e3 _
                Hparse Hchain' Hpre Hstage) as Hrun.
  eexists. split; [exact Hrun | reflexivity].
Qed.

Lemma rate_limit_names_the_user_witness :
  let W := sample_environ IOBlocked in
  let config := sample_config [] in
  exists w',
    EnterpriseProxy.handle_request W
      (sample_proxy W []
         (four_stages W
            (SecurityMiddleware.source (security config))
            (ObservabilityMiddleware.mk (observability config))
            (GovernanceMiddleware.source (governance config))
            (exhausted (cost_management config))))
      list_tools start
    = (w', Ret (error_envelope
                  (lit "Rate limit exceeded for user: demo_user")))
    /\ trace w' = [EvRequest 0; EvRequest 1; EvRequest 2; EvRequest 3].
Proof.
  intros W config.
  apply (rate_limit_names_the_user W _ list_tools start
           {| clock_reads := 1; uuid_draws := 1 |} plain_request
           (SecurityMiddleware.source (security config))
           (ObservabilityMiddleware.mk (observability config))
           (GovernanceMiddleware.source (governance config))
           (exhausted (cost_management config)));
    vm_compute; reflexivity.
Defined.

(** * The order of the calls, whatever the outcome *)




